(** * NBA chatbot: intent routing, entity resolution and dialogue state

    A shallow embedding of [nba_chatbot_web.py].  Python [str] values are
    Rocq strings (the model covers ASCII text: [str.lower] and the regular
    expression classes are taken on ASCII), the Streamlit session state and
    the record of calls made to the statistics endpoints are threaded through
    a small state-and-exception monad, and the external collaborators (the
    [nba_api] endpoints, [difflib.get_close_matches], the number formatting of
    f-strings) are fields of one record the whole development is
    parameterised by. *)

From Stdlib Require Import String Ascii List ZArith Bool Lia Arith.
From Stdlib Require Import DecimalString.
Import ListNotations.

Local Open Scope string_scope.
Local Open Scope Z_scope.

(** ** Python strings *)

Module PyStr.

(** [c.lower()] on one ASCII character. *)
Definition lower_ascii (c : ascii) : ascii :=
  let n := nat_of_ascii c in
  if (Nat.leb 65 n && Nat.leb n 90)%bool then ascii_of_nat (n + 32) else c.

(** [s.lower()], on ASCII text; [str.lower] also maps the letters beyond
    ASCII, which are left as they are here. *)
Fixpoint lower (s : string) : string :=
  match s with
  | EmptyString => EmptyString
  | String c rest => String (lower_ascii c) (lower rest)
  end.

(** [needle in hay]: substring test, scanning start positions from the left. *)
Fixpoint contains (needle hay : string) : bool :=
  if String.prefix needle hay then true
  else match hay with
       | EmptyString => false
       | String _ rest => contains needle rest
       end.

(** [s[-2:]]: the last two characters, or all of [s] when it is shorter. *)
Definition last2 (s : string) : string :=
  String.substring (Nat.sub (String.length s) 2) 2 s.

(** [s[:10]]. *)
Definition first10 (s : string) : string := String.substring 0 10 s.

(** [str(z)] for an integer. *)
Definition str_of_Z (z : Z) : string := NilZero.string_of_int (Z.to_int z).

Definition is_digit (c : ascii) : bool :=
  let n := nat_of_ascii c in (Nat.leb 48 n && Nat.leb n 57)%bool.

(** [\w] on ASCII: letters, digits and the underscore; the word class of
    Python also holds the letters and digits beyond ASCII. *)
Definition is_word (c : ascii) : bool :=
  let n := nat_of_ascii c in
  ((Nat.leb 48 n && Nat.leb n 57) || (Nat.leb 65 n && Nat.leb n 90)
   || (Nat.leb 97 n && Nat.leb n 122) || Nat.eqb n 95)%bool.

Fixpoint digits_value (acc : Z) (s : string) : option Z :=
  match s with
  | EmptyString => Some acc
  | String c rest =>
      if is_digit c
      then digits_value (10 * acc + Z.of_nat (nat_of_ascii c - 48)) rest
      else None
  end.

(** [int(s)] for a string of decimal digits; [None] stands for the
    [ValueError] Python raises.  Signs, blanks and underscores, which
    [int] also accepts, do not occur in a year found by the regular
    expression and are not modelled. *)
Definition int_of_str (s : string) : option Z :=
  match s with
  | EmptyString => None
  | _ => digits_value 0 s
  end.

(** The line feed of ["\n"]. *)
Definition NL : string := String (ascii_of_nat 10) EmptyString.

(** Truth value of a [str]: false exactly for the empty string. *)
Definition truthy (s : string) : bool :=
  match s with EmptyString => false | _ => true end.

End PyStr.

(** ** Season years *)

(** The regular expression [(20[0-9]{2}|19[0-9]{2})] tried at the head of [s],
    followed by the closing [\b]: the match ends in a digit, so the boundary
    holds at the end of the text or before a non-word character. *)
Definition year_at (s : string) : option string :=
  match s with
  | String a (String b (String c (String d rest))) =>
      let century :=
        ((Ascii.eqb a "2" && Ascii.eqb b "0") || (Ascii.eqb a "1" && Ascii.eqb b "9"))%bool in
      let closing :=
        match rest with
        | EmptyString => true
        | String e _ => negb (PyStr.is_word e)
        end in
      if (century && PyStr.is_digit c && PyStr.is_digit d && closing)%bool
      then Some (String a (String b (String c (String d EmptyString))))
      else None
  | _ => None
  end.

(** [re.search] tries the start positions from the left.  The opening [\b]
    stands before a digit, so it holds at the start of the text or after a
    non-word character; [prev_word] tells whether the character before the
    current position is a word character. *)
Fixpoint search_year (prev_word : bool) (s : string) : option string :=
  match (if prev_word then None else year_at s) with
  | Some y => Some y
  | None =>
      match s with
      | EmptyString => None
      | String c rest => search_year (PyStr.is_word c) rest
      end
  end.

(** [extract_season_year(text)]: [match.group(1) if match else None]. *)
Definition extract_season_year (text : string) : option string :=
  search_year false text.

(** A value passed as [season_year]: the chatbot passes the [str] the regular
    expression matched, and the expression building the season label accepts
    an [int] as well, through [int(...)] and [str(...)]. *)
Inductive year_arg : Type :=
| YInt (z : Z)
| YStr (s : string).

(** [int(season_year)], [None] for a [ValueError]. *)
Definition year_int (y : year_arg) : option Z :=
  match y with
  | YInt z => Some z
  | YStr s => PyStr.int_of_str s
  end.

(** [str(season_year)]. *)
Definition year_str (y : year_arg) : string :=
  match y with
  | YInt z => PyStr.str_of_Z z
  | YStr s => s
  end.

(** Truth value of [season_year] in [if season_year:]. *)
Definition year_truthy (y : year_arg) : bool :=
  match y with
  | YInt z => negb (z =? 0)
  | YStr s => PyStr.truthy s
  end.

(** [f"{int(season_year)-1}-{str(season_year)[-2:]}"], the expression of
    [get_stats_for_season], [get_top_scorers] and [generate_response];
    [None] when [int] raises. *)
Definition season_label (y : year_arg) : option string :=
  match year_int y with
  | Some n => Some (PyStr.str_of_Z (n - 1) ++ "-" ++ PyStr.last2 (year_str y))
  | None => None
  end.


(** ** Data model and external collaborators *)

(** One entry of [players.get_players()]. *)
Record Player : Type := {
  full_name : string;
  id : Z;
  is_active : bool
}.

(** One row of the career data frame; [num] is the type of its numeric cells. *)
Record Row (num : Type) : Type := {
  SEASON_ID : string;
  TEAM_ABBREVIATION : string;
  PTS : num;
  AST : num;
  REB : num;
  GP : num;
  FG_PCT : num
}.
Arguments SEASON_ID {num}.
Arguments TEAM_ABBREVIATION {num}.
Arguments PTS {num}.
Arguments AST {num}.
Arguments REB {num}.
Arguments GP {num}.
Arguments FG_PCT {num}.

(** One row of the league-leaders data frame, with the columns the chatbot
    selects for [stat='PTS']. *)
Record LeaderRow (num : Type) : Type := {
  PLAYER : string;
  TEAM : string;
  LEADER_PTS : num
}.
Arguments PLAYER {num}.
Arguments TEAM {num}.
Arguments LEADER_PTS {num}.

(** A Python exception: its class and [str(e)]. *)
Inductive exn : Type :=
| Exn (cls : string) (msg : string).

Definition exn_str (e : exn) : string :=
  match e with Exn _ msg => msg end.

(** What [df.iloc[i]] raises on an empty frame. *)
Definition IndexError : exn :=
  Exn "IndexError" "single positional indexer is out-of-bounds".

(** What [int(s)] raises on a string that is not a number. *)
Definition ValueError (s : string) : exn :=
  Exn "ValueError" ("invalid literal for int() with base 10: '" ++ s ++ "'").

(** The collaborators of the chatbot.  An endpoint answers with the rows of
    its first data frame or raises; [None] as a player id is what the chatbot
    passes when the id lookup found nothing.  A bio record maps a field name
    to its text, [None] for a field that is absent or NaN.  The cells of a row
    are numbers, on which the formatting of an f-string is total; a cell that
    is [None] or a text, on which [:.1f] and [*100] raise in Python, is
    outside the model. *)
Record Env : Type := {
  num : Type;
  fmt_plain : num -> string;                 (* f"{x}" *)
  fmt_1f : num -> string;                    (* f"{x:.1f}" *)
  fmt_pct_1f : num -> string;                (* f"{x*100:.1f}" *)
  all_players : list Player;                 (* players.get_players() *)
  (* difflib.get_close_matches(word, possibilities, n, cutoff=0.5) *)
  get_close_matches : string -> list string -> nat -> list string;
  PlayerCareerStats : option Z -> exn + list (Row num);
  LeagueLeaders : string -> exn + list (LeaderRow num);
  CommonPlayerInfo : Z -> exn + list (string -> option string)
}.

(** ** Session state, call record and the monad of one turn *)

(** [st.session_state.last_player] and [st.session_state.last_season]. *)
Record SessionState : Type := {
  last_player : option string;
  last_season : option string
}.

(** A request sent to the statistics backend. *)
Inductive Call : Type :=
| CallCareerStats (player_id : option Z)
| CallLeagueLeaders (season : string)
| CallPlayerInfo (player_id : Z).

Record World : Type := {
  session : SessionState;
  calls : list Call
}.

Inductive outcome (A : Type) : Type :=
| Returned (a : A)
| Raised (e : exn).
Arguments Returned {A}.
Arguments Raised {A}.

(** A computation reads and writes the world and returns or raises; what it
    wrote before raising stays written. *)
Definition M (A : Type) : Type := World -> outcome A * World.

Definition ret {A} (a : A) : M A := fun w => (Returned a, w).

Definition raise {A} (e : exn) : M A := fun w => (Raised e, w).

Definition bind {A B} (m : M A) (k : A -> M B) : M B :=
  fun w =>
    match m w with
    | (Returned a, w') => k a w'
    | (Raised e, w') => (Raised e, w')
    end.

(** [try: body  except: handler]. *)
Definition try_except {A} (body : M A) (handler : exn -> M A) : M A :=
  fun w =>
    match body w with
    | (Returned a, w') => (Returned a, w')
    | (Raised e, w') => handler e w'
    end.

Definition get_session : M SessionState := fun w => (Returned (session w), w).

Definition set_last_season (y : option string) : M unit :=
  fun w =>
    (Returned tt,
     {| session := {| last_player := last_player (session w); last_season := y |};
        calls := calls w |}).

Definition set_last_player (n : option string) : M unit :=
  fun w =>
    (Returned tt,
     {| session := {| last_player := n; last_season := last_season (session w) |};
        calls := calls w |}).

(** A computation that never writes the session state. *)
Definition keeps_session {A} (m : M A) : Prop :=
  forall w, session (snd (m w)) = session w.

(** Sending request [c], whose answer is [r]. *)
Definition request {A} (c : Call) (r : exn + A) : M A :=
  fun w =>
    (match r with inl e => Raised e | inr a => Returned a end,
     {| session := session w; calls := calls w ++ [c] |}).

(** Lifting a value that may be an exception. *)
Definition of_option {A} (o : option A) (e : exn) : M A :=
  match o with Some a => ret a | None => raise e end.

Declare Scope chat_scope.
Delimit Scope chat_scope with chat.
Notation "x <- m ;; k" := (bind m (fun x => k))
  (at level 61, m at next level, right associativity) : chat_scope.
Notation "m ;;; k" := (bind m (fun _ => k))
  (at level 61, right associativity) : chat_scope.

(** ** The chatbot *)

Section Chatbot.

Variable env : Env.

Local Open Scope chat_scope.

(** [player_names = [p['full_name'] for p in all_players]]. *)
Definition player_names : list string := map full_name (all_players env).

Fixpoint find_id_in (ps : list Player) (player_name : string) : option Z :=
  match ps with
  | [] => None
  | player :: rest =>
      if String.eqb (PyStr.lower (full_name player)) (PyStr.lower player_name)
      then Some (id player)
      else find_id_in rest player_name
  end.

(** [find_player_id(player_name)]. *)
Definition find_player_id (player_name : string) : option Z :=
  find_id_in (all_players env) player_name.

(** Truth value of an id in [if not pid:]: [None] and [0] are false. *)
Definition id_truthy (pid : option Z) : bool :=
  match pid with
  | Some z => negb (z =? 0)
  | None => false
  end.

(** The dictionary [get_stats_for_season] returns. *)
Record Stats : Type := {
  season : string;
  team : string;
  pts : num env;
  ast : num env;
  reb : num env;
  games : num env;
  fg_pct : num env
}.

Definition stats_of_row (row : Row (num env)) : Stats :=
  {| season := SEASON_ID row;
     team := TEAM_ABBREVIATION row;
     pts := PTS row;
     ast := AST row;
     reb := REB row;
     games := GP row;
     fg_pct := FG_PCT row |}.

(** [df[df["SEASON_ID"] == season_id]]. *)
Definition rows_of_season (season_id : string) (df : list (Row (num env)))
  : list (Row (num env)) :=
  filter (fun row => String.eqb (SEASON_ID row) season_id) df.

(** [df.iloc[-1]]. *)
Definition iloc_last {A} (df : list A) : M A :=
  match rev df with
  | [] => raise IndexError
  | row :: _ => ret row
  end.

(** [df.iloc[0]]. *)
Definition iloc_first {A} (df : list A) : M A :=
  match df with
  | [] => raise IndexError
  | row :: _ => ret row
  end.

Definition opt_year_truthy (season_year : option year_arg) : bool :=
  match season_year with
  | Some y => year_truthy y
  | None => false
  end.

(** The season label of a year, raising where [int] does. *)
Definition season_id_of (y : year_arg) : M string :=
  of_option (season_label y) (ValueError (year_str y)).

(** [get_stats_for_season(player_id, season_year=None)]; [None] is the
    early [return None]. *)
Definition get_stats_for_season (player_id : option Z) (season_year : option year_arg)
  : M (option Stats) :=
  df <- request (CallCareerStats player_id) (PlayerCareerStats env player_id) ;;
  match season_year with
  | Some y =>
      if year_truthy y then
        season_id <- season_id_of y ;;
        match rows_of_season season_id df with
        | [] => ret None
        | row :: _ => ret (Some (stats_of_row row))
        end
      else
        row <- iloc_last df ;; ret (Some (stats_of_row row))
  | None =>
      row <- iloc_last df ;; ret (Some (stats_of_row row))
  end.

(** [find_closest_names(text, limit)]. *)
Definition find_closest_names (text : string) (limit : nat) : list string :=
  get_close_matches env text player_names limit.

(** The loop of [find_multiple_players], [found] being the list built so
    far; reaching two names leaves the loop. *)
Fixpoint scan_names (names : list string) (text : string) (found : list string)
  : list string :=
  match names with
  | [] => found
  | name :: rest =>
      let found' :=
        if PyStr.contains (PyStr.lower name) (PyStr.lower text)
        then (found ++ [name])%list else found in
      if Nat.eqb (length found') 2 then found' else scan_names rest text found'
  end.

(** [find_multiple_players(text)]. *)
Definition find_multiple_players (text : string) : option (list string) :=
  let found := scan_names player_names text [] in
  if Nat.eqb (length found) 2 then Some found else None.

(** The message of [compare_players] when a player has no stats. *)
Definition compare_unavailable (season_year : option year_arg) : string :=
  "❌ Stats not available for one or both players in "
  ++ match season_year with Some y => year_str y | None => "None" end ++ ".".

Definition compare_table (name1 name2 : string) (stats1 stats2 : Stats) : string :=
  "📊 **" ++ name1 ++ " vs " ++ name2 ++ "** in " ++ season stats1 ++ ":"
  ++ PyStr.NL ++ PyStr.NL
  ++ "| Stat     | " ++ name1 ++ " | " ++ name2 ++ " |" ++ PyStr.NL
  ++ "|----------|---------|---------|" ++ PyStr.NL
  ++ "| Team     | " ++ team stats1 ++ " | " ++ team stats2 ++ " |" ++ PyStr.NL
  ++ "| Games    | " ++ fmt_plain env (games stats1) ++ " | "
  ++ fmt_plain env (games stats2) ++ " |" ++ PyStr.NL
  ++ "| PPG      | " ++ fmt_1f env (pts stats1) ++ " | "
  ++ fmt_1f env (pts stats2) ++ " |" ++ PyStr.NL
  ++ "| APG      | " ++ fmt_1f env (ast stats1) ++ " | "
  ++ fmt_1f env (ast stats2) ++ " |" ++ PyStr.NL
  ++ "| RPG      | " ++ fmt_1f env (reb stats1) ++ " | "
  ++ fmt_1f env (reb stats2) ++ " |" ++ PyStr.NL
  ++ "| FG%      | " ++ fmt_pct_1f env (fg_pct stats1) ++ "% | "
  ++ fmt_pct_1f env (fg_pct stats2) ++ "% |" ++ PyStr.NL.

(** [compare_players(name1, name2, season_year=None)]. *)
Definition compare_players (name1 name2 : string) (season_year : option year_arg)
  : M string :=
  let id1 := find_player_id name1 in
  let id2 := find_player_id name2 in
  if (negb (id_truthy id1) || negb (id_truthy id2))%bool then
    ret ("Could not find both players: " ++ name1 ++ " and " ++ name2 ++ ".")
  else
    stats1 <- get_stats_for_season id1 season_year ;;
    stats2 <- get_stats_for_season id2 season_year ;;
    match stats1, stats2 with
    | Some s1, Some s2 => ret (compare_table name1 name2 s1 s2)
    | _, _ => ret (compare_unavailable season_year)
    end.

(** One table line of [get_top_scorers]; [i] is the index of the row. *)
Definition leader_line (i : nat) (row : LeaderRow (num env)) : string :=
  "| " ++ PyStr.str_of_Z (Z.of_nat i + 1) ++ " | " ++ PLAYER row ++ " | " ++ TEAM row
  ++ " | " ++ fmt_1f env (LEADER_PTS row) ++ " |" ++ PyStr.NL.

Fixpoint leader_lines (i : nat) (rows : list (LeaderRow (num env))) : string :=
  match rows with
  | [] => EmptyString
  | row :: rest => leader_line i row ++ leader_lines (S i) rest
  end.

Definition leaders_table (stat season_id : string) (top5 : list (LeaderRow (num env)))
  : string :=
  "🏀 Top 5 players by " ++ stat ++ " in " ++ season_id ++ ":" ++ PyStr.NL ++ PyStr.NL
  ++ "| Rank | Player | Team | " ++ stat ++ " |" ++ PyStr.NL
  ++ "|------|--------|------|------|" ++ PyStr.NL
  ++ leader_lines 0 top5.

(** The message of the bare [except:] of [get_top_scorers]. *)
Definition leaders_failed (stat season_id : string) : string :=
  "Couldn't fetch top " ++ stat ++ " leaders for " ++ season_id ++ ".".

(** [get_top_scorers(season_year, stat='PTS')]. *)
Definition get_top_scorers (season_year : year_arg) : M string :=
  let stat := "PTS" in
  season_id <- season_id_of season_year ;;
  try_except
    (df <- request (CallLeagueLeaders season_id) (LeagueLeaders env season_id) ;;
     let top5 := firstn 5 df in
     ret (leaders_table stat season_id top5))
    (fun _ => ret (leaders_failed stat season_id)).

(** The dictionary [get_career_averages] returns. *)
Record Career : Type := {
  career_pts : num env;
  career_ast : num env;
  career_reb : num env;
  career_games : num env;
  career_fg_pct : num env
}.

Definition career_of_row (row : Row (num env)) : Career :=
  {| career_pts := PTS row;
     career_ast := AST row;
     career_reb := REB row;
     career_games := GP row;
     career_fg_pct := FG_PCT row |}.

(** [get_career_averages(player_id)]. *)
Definition get_career_averages (player_id : option Z) : M Career :=
  df <- request (CallCareerStats player_id) (PlayerCareerStats env player_id) ;;
  row <- iloc_last df ;;
  ret (career_of_row row).

(** [safe(field)] inside [get_player_bio]. *)
Definition safe (data : string -> option string) (field : string) : string :=
  match data field with
  | Some value => if PyStr.truthy value then value else "N/A"
  | None => "N/A"
  end.

Definition bio_text (player : Player) (data : string -> option string) : string :=
  "🧬 **" ++ safe data "DISPLAY_FIRST_LAST" ++ "**" ++ PyStr.NL ++ PyStr.NL
  ++ "**Position:** " ++ safe data "POSITION" ++ PyStr.NL ++ PyStr.NL
  ++ "**Team:** " ++ safe data "TEAM_NAME" ++ " (" ++ safe data "TEAM_ABBREVIATION" ++ ")"
  ++ PyStr.NL ++ PyStr.NL
  ++ "**Height:** " ++ safe data "HEIGHT" ++ "  |  **Weight:** " ++ safe data "WEIGHT"
  ++ " lbs" ++ PyStr.NL ++ PyStr.NL
  ++ "**Birth Date:** "
  ++ (if String.eqb (safe data "BIRTHDATE") "N/A" then "N/A"
      else PyStr.first10 (safe data "BIRTHDATE"))
  ++ PyStr.NL ++ PyStr.NL
  ++ "**Country:** " ++ safe data "COUNTRY" ++ PyStr.NL ++ PyStr.NL
  ++ "**Draft Info:** " ++ safe data "DRAFT_YEAR" ++ " Round " ++ safe data "DRAFT_ROUND"
  ++ ", Pick " ++ safe data "DRAFT_NUMBER" ++ PyStr.NL ++ PyStr.NL
  ++ "**Years Pro:** " ++ safe data "SEASON_EXP" ++ PyStr.NL ++ PyStr.NL
  ++ "**Is Active:** " ++ (if is_active player then "✅ Yes" else "❌ No").

(** The message of the [except Exception as e:] of [get_player_bio]. *)
Definition bio_failed (name : string) (e : exn) : string :=
  "❌ Could not fetch detailed bio for " ++ name ++ ". Error: " ++ exn_str e.

(** [get_player_bio(name)]. *)
Definition get_player_bio (name : string) : M string :=
  match find (fun p => String.eqb (PyStr.lower (full_name p)) (PyStr.lower name))
             (all_players env) with
  | None => ret "Player not found."
  | Some player =>
      let player_id := id player in
      try_except
        (df <- request (CallPlayerInfo player_id) (CommonPlayerInfo env player_id) ;;
         data <- iloc_first df ;;
         ret (bio_text player data))
        (fun e => ret (bio_failed name e))
  end.

(** *** Intent routing *)

Inductive Subfield : Type :=
| SubPoints | SubAssists | SubRebounds | SubTeam | SubFgPct | SubSummary.

(** The intents, each with the entities its handler works on. *)
Inductive Intent : Type :=
| TopScorers
| CareerAverages (player : string)
| Bio (player : string)
| Compare (name1 name2 : string)
| SeasonStat (player : string) (sub : Subfield)
| Unrecognized.

(** ["top" in text and ("scorers" in text or "points" in text or "ppg" in text)]. *)
Definition top_trigger (text : string) : bool :=
  (PyStr.contains "top" text
   && (PyStr.contains "scorers" text || PyStr.contains "points" text
       || PyStr.contains "ppg" text))%bool.

(** ["career" in text or "all-time" in text or "all time" in text]. *)
Definition career_trigger (text : string) : bool :=
  (PyStr.contains "career" text || PyStr.contains "all-time" text
   || PyStr.contains "all time" text)%bool.

(** ["bio" in text or "info" in text]. *)
Definition bio_trigger (text : string) : bool :=
  (PyStr.contains "bio" text || PyStr.contains "info" text)%bool.

(** The [if]/[elif] scan at the end of [generate_response]. *)
Definition select_subfield (text : string) : Subfield :=
  if (PyStr.contains "points" text || PyStr.contains "ppg" text)%bool then SubPoints
  else if (PyStr.contains "assists" text || PyStr.contains "apg" text)%bool then SubAssists
  else if (PyStr.contains "rebounds" text || PyStr.contains "rpg" text)%bool then SubRebounds
  else if PyStr.contains "team" text then SubTeam
  else if (PyStr.contains "fg" text || PyStr.contains "field goal" text)%bool then SubFgPct
  else SubSummary.

(** Truth value of [player_name] ([None] or a [str]) and of [season_year]. *)
Definition opt_truthy (o : option string) : bool :=
  match o with
  | Some s => PyStr.truthy s
  | None => false
  end.

(** [f"{player_name}"]. *)
Definition name_text (player_name : option string) : string :=
  match player_name with
  | Some n => n
  | None => "None"
  end.

(** The conditions of the [if] statements of [generate_response], in the
    order of the source; each [return] of the source is the handler of the
    intent selected here. *)
Definition route (text : string) (player_name : option string)
           (players_in_text : option (list string)) : Intent :=
  if top_trigger text then TopScorers
  else if (opt_truthy player_name && career_trigger text)%bool
  then CareerAverages (name_text player_name)
  else if (opt_truthy player_name && bio_trigger text)%bool
  then Bio (name_text player_name)
  else match players_in_text with
       | Some found => Compare (nth 0 found EmptyString) (nth 1 found EmptyString)
       | None =>
           if negb (opt_truthy player_name) then Unrecognized
           else SeasonStat (name_text player_name) (select_subfield text)
       end.

Definition prompt_for_year : string :=
  "Please specify a year, like 'Top scorers 2022'.".

Definition player_not_found (player_name : string) : string :=
  "Player " ++ player_name ++ " not found.".

Definition career_text (player_name : string) (career : Career) : string :=
  "📈 Career Averages for " ++ player_name ++ ":" ++ PyStr.NL
  ++ "- Games: " ++ fmt_plain env (career_games career) ++ PyStr.NL
  ++ "- PPG: " ++ fmt_1f env (career_pts career) ++ PyStr.NL
  ++ "- APG: " ++ fmt_1f env (career_ast career) ++ PyStr.NL
  ++ "- RPG: " ++ fmt_1f env (career_reb career) ++ PyStr.NL
  ++ "- FG%: " ++ fmt_pct_1f env (career_fg_pct career) ++ "%".

Definition not_recognized : string :=
  "I couldn't recognize any player. Try again with a name like 'LeBron James'.".

Definition did_not_play (player_name season_id : string) : string :=
  "❌ " ++ player_name ++ " did not play in the " ++ season_id ++ " season.".

Definition no_stats_found (player_name : string) : string :=
  "❌ No stats found for " ++ player_name ++ ".".

Definition stat_text (sub : Subfield) (player_name : string) (stats : Stats) : string :=
  match sub with
  | SubPoints =>
      player_name ++ " scored " ++ fmt_1f env (pts stats) ++ " PPG in the "
      ++ season stats ++ " season."
  | SubAssists =>
      player_name ++ " made " ++ fmt_1f env (ast stats) ++ " APG in the "
      ++ season stats ++ " season."
  | SubRebounds =>
      player_name ++ " got " ++ fmt_1f env (reb stats) ++ " RPG in the "
      ++ season stats ++ " season."
  | SubTeam =>
      player_name ++ " played for " ++ team stats ++ " in the "
      ++ season stats ++ " season."
  | SubFgPct =>
      player_name ++ "'s FG% in the " ++ season stats ++ " season was "
      ++ fmt_pct_1f env (fg_pct stats) ++ "%."
  | SubSummary =>
      player_name ++ " in the " ++ season stats ++ " season (with " ++ team stats ++ "):"
      ++ PyStr.NL
      ++ "Games: " ++ fmt_plain env (games stats) ++ ", PPG: " ++ fmt_1f env (pts stats)
      ++ ", APG: " ++ fmt_1f env (ast stats) ++ ", RPG: " ++ fmt_1f env (reb stats)
      ++ ", FG%: " ++ fmt_pct_1f env (fg_pct stats) ++ "%"
  end.

(** The body of each branch of [generate_response]; [season_year] is the
    season of the turn. *)
Definition handle (intent : Intent) (season_year : option string) : M string :=
  let year := option_map YStr season_year in
  match intent with
  | TopScorers =>
      match season_year with
      | Some y => if PyStr.truthy y then get_top_scorers (YStr y) else ret prompt_for_year
      | None => ret prompt_for_year
      end
  | CareerAverages player_name =>
      let pid := find_player_id player_name in
      if negb (id_truthy pid) then ret (player_not_found player_name)
      else
        career <- get_career_averages pid ;;
        ret (career_text player_name career)
  | Bio player_name => get_player_bio player_name
  | Compare name1 name2 => compare_players name1 name2 year
  | Unrecognized => ret not_recognized
  | SeasonStat player_name sub =>
      stats <- get_stats_for_season (find_player_id player_name) year ;;
      match stats with
      | None =>
          match season_year with
          | Some y =>
              if PyStr.truthy y then
                season_id <- season_id_of (YStr y) ;;
                ret (did_not_play player_name season_id)
              else ret (no_stats_found player_name)
          | None => ret (no_stats_found player_name)
          end
      | Some stats => ret (stat_text sub player_name stats)
      end
  end.

(** The season of the turn: the year of the text, stored, or else the
    stored one. *)
Definition resolve_season (text : string) : M (option string) :=
  let season_year := extract_season_year text in
  if negb (opt_truthy season_year) then
    s <- get_session ;; ret (last_season s)
  else
    set_last_season season_year ;;; ret season_year.

(** The player of the turn: the closest roster name, stored, or else the
    stored one. *)
Definition resolve_player (user_input : string) : M (option string) :=
  match find_closest_names user_input 1 with
  | [] => s <- get_session ;; ret (last_player s)
  | first :: _ => set_last_player (Some first) ;;; ret (Some first)
  end.

(** [generate_response(user_input)]. *)
Definition generate_response (user_input : string) : M string :=
  let text := PyStr.lower user_input in
  let players_in_text := find_multiple_players text in
  season_year <- resolve_season text ;;
  player_name <- resolve_player user_input ;;
  handle (route text player_name players_in_text) season_year.

End Chatbot.

(** ** The entities of a turn, as functions of the utterance and the state *)

Section Turn.

Variable env : Env.

(** The season of the turn. *)
Definition turn_season (user_input : string) (s : SessionState) : option string :=
  match extract_season_year (PyStr.lower user_input) with
  | Some y => Some y
  | None => last_season s
  end.

(** The player of the turn. *)
Definition turn_player (user_input : string) (s : SessionState) : option string :=
  match find_closest_names env user_input 1 with
  | first :: _ => Some first
  | [] => last_player s
  end.

(** The intent of the turn. *)
Definition turn_intent (user_input : string) (s : SessionState) : Intent :=
  route (PyStr.lower user_input) (turn_player user_input s)
        (find_multiple_players env (PyStr.lower user_input)).

(** The session state the turn leaves. *)
Definition committed (user_input : string) (s : SessionState) : SessionState :=
  {| last_player := turn_player user_input s;
     last_season := turn_season user_input s |}.

End Turn.

(** ** The router as a rule table

    The ordered chain the specification describes: each rule is a trigger
    and the intent it selects, and the first rule whose trigger holds
    wins. *)

Record RouterInput : Type := {
  in_text : string;
  in_player : option string;
  in_found : option (list string)
}.

Definition Rule : Type := (RouterInput -> bool) * (RouterInput -> Intent).

Fixpoint first_match (rules : list Rule) (i : RouterInput) : option Intent :=
  match rules with
  | [] => None
  | (trigger, intent) :: rest =>
      if trigger i then Some (intent i) else first_match rest i
  end.

Definition is_some {A} (o : option A) : bool :=
  match o with Some _ => true | None => false end.

Definition rule_chain : list Rule :=
  [ (fun i => top_trigger (in_text i),
     fun _ => TopScorers);
    (fun i => (opt_truthy (in_player i) && career_trigger (in_text i))%bool,
     fun i => CareerAverages (name_text (in_player i)));
    (fun i => (opt_truthy (in_player i) && bio_trigger (in_text i))%bool,
     fun i => Bio (name_text (in_player i)));
    (fun i => is_some (in_found i),
     fun i => match in_found i with
              | Some found => Compare (nth 0 found EmptyString) (nth 1 found EmptyString)
              | None => Unrecognized
              end);
    (fun i => opt_truthy (in_player i),
     fun i => SeasonStat (name_text (in_player i)) (select_subfield (in_text i)));
    (fun _ => true,
     fun _ => Unrecognized) ].

(** [name.lower() in text.lower()]. *)
Definition name_present (text name : string) : bool :=
  PyStr.contains (PyStr.lower name) (PyStr.lower text).

(** The roster entries whose name occurs in the utterance, in roster order. *)
Definition names_present (env : Env) (text : string) : list string :=
  filter (name_present text) (player_names env).

(** The two-digit, zero-padded suffix of a year, as the specification words it. *)
Definition two_digit_suffix (y : Z) : string :=
  PyStr.str_of_Z ((y mod 100) / 10) ++ PyStr.str_of_Z (y mod 10).

(** Whether the label of the integer year [y] is the one the specification
    gives. *)
Definition label_as_specified (y : Z) : bool :=
  match season_label (YInt y) with
  | Some label =>
      String.eqb label (PyStr.str_of_Z (y - 1) ++ "-" ++ two_digit_suffix y)
  | None => false
  end.

(** ** Shapes, bounds and runs of several turns *)

(** A string the group of the regular expression matches: 19 or 20 and two
    digits. *)
Definition year_shaped (y : string) : bool :=
  match y with
  | String a (String b (String c (String d EmptyString))) =>
      (((Ascii.eqb a "2" && Ascii.eqb b "0") || (Ascii.eqb a "1" && Ascii.eqb b "9"))
       && PyStr.is_digit c && PyStr.is_digit d)%bool
  | _ => false
  end.

(** The [\b] after a match: the text ends there or goes on with a non-word
    character. *)
Definition starts_nonword (post : string) : bool :=
  match post with
  | EmptyString => true
  | String c _ => negb (PyStr.is_word c)
  end.

(** The [\b] before a match that follows [pre]: [pre] is empty or ends with a
    non-word character; [prev] tells whether a word character stands before
    [pre]. *)
Fixpoint ends_nonword (prev : bool) (pre : string) : bool :=
  match pre with
  | EmptyString => negb prev
  | String c rest => ends_nonword (PyStr.is_word c) rest
  end.

(** The stored season is absent or a year the regular expression matched. *)
Definition season_stored_ok (s : SessionState) : bool :=
  match last_season s with
  | None => true
  | Some y => year_shaped y
  end.

(** Several turns in a row on one session; a turn that raised has left its
    writes, and the next one starts from them. *)
Fixpoint run_turns (env : Env) (inputs : list string) (w : World) : World :=
  match inputs with
  | [] => w
  | user_input :: rest => run_turns env rest (snd (generate_response env user_input w))
  end.

(** The number of backend requests the handler of an intent can send. *)
Definition requests_allowed (intent : Intent) : nat :=
  match intent with
  | Compare _ _ => 2
  | Unrecognized => 0
  | _ => 1
  end.

(** A computation that appends at most [n] requests to the record of calls
    and leaves the earlier ones as they are. *)
Definition sends_at_most {A} (n : nat) (m : M A) : Prop :=
  forall w, exists new,
    calls (snd (m w)) = (calls w ++ new)%list /\ (length new <= n)%nat.

(** Every exception a computation can raise satisfies [P]. *)
Definition raises_only {A} (P : exn -> Prop) (m : M A) : Prop :=
  forall w e, fst (m w) = Raised e -> P e.

(** A text of ASCII characters only.  On such a text [PyStr.lower] is
    [str.lower] and [PyStr.is_word] is the word class of the regular
    expression; on other text Python's are wider. *)
Fixpoint ascii_text (s : string) : bool :=
  match s with
  | EmptyString => true
  | String c rest => (Nat.ltb (nat_of_ascii c) 128 && ascii_text rest)%bool
  end.

(** ** A sample world

    A roster of five players and a backend with short career tables, used
    to run the chatbot on concrete utterances.  The cells are fixed-point
    numbers in thousandths. *)

Module Sample.

Definition tenths (z : Z) : string :=
  PyStr.str_of_Z (z / 10) ++ "." ++ PyStr.str_of_Z (z mod 10).

Definition roster : list Player :=
  [ {| full_name := "LeBron James"; id := 2544; is_active := true |};
    {| full_name := "Stephen Curry"; id := 201939; is_active := true |};
    {| full_name := "Kevin Durant"; id := 201142; is_active := true |};
    {| full_name := "Giannis Antetokounmpo"; id := 203507; is_active := true |};
    {| full_name := "Yao Ming"; id := 2397; is_active := false |} ].

Definition row (s t : string) (p a r g f : Z) : Row Z :=
  {| SEASON_ID := s; TEAM_ABBREVIATION := t;
     PTS := p; AST := a; REB := r; GP := g; FG_PCT := f |}.

Definition lebron : list (Row Z) :=
  [ row "2018-19" "LAL" 27400 8300 8500 55000 510;
    row "2019-20" "LAL" 25300 10200 7800 67000 493 ].

Definition curry : list (Row Z) :=
  [ row "2019-20" "GSW" 20800 6600 5200 5000 402;
    row "2020-21" "GSW" 32000 5800 5500 63000 482 ].

Definition giannis : list (Row Z) :=
  [ row "2019-20" "MIL" 29500 5600 13600 63000 553 ].

Definition career (player_id : option Z) : exn + list (Row Z) :=
  match player_id with
  | Some 2544 => inr lebron
  | Some 201939 => inr curry
  | Some 203507 => inr giannis
  | Some _ => inr []
  | None => inl (Exn "KeyError" "player_id")
  end.

(** A backend whose career endpoint fails. *)
Definition career_down (player_id : option Z) : exn + list (Row Z) :=
  inl (Exn "ReadTimeout" "stats.nba.com read timed out").

Definition leaders (season_id : string) : exn + list (LeaderRow Z) :=
  if String.eqb season_id "2019-20"
  then inr [ {| PLAYER := "James Harden"; TEAM := "HOU"; LEADER_PTS := 34300 |} ]
  else inl (Exn "JSONDecodeError" "Expecting value").

Definition info (player_id : Z) : exn + list (string -> option string) :=
  inl (Exn "ReadTimeout" "stats.nba.com read timed out").

(** A stand-in for [difflib.get_close_matches]: a roster name that occurs
    in the word, the word being at most three times as long, has a
    similarity of at least 0.5 and is kept; on the utterances below no
    other name comes as close. *)
Definition close_matches (word : string) (possibilities : list string) (n : nat)
  : list string :=
  firstn n
    (filter (fun name =>
               (PyStr.contains name word
                && Nat.leb (String.length word) (3 * String.length name))%bool)
            possibilities).

Definition env_with (players : list Player)
           (career_endpoint : option Z -> exn + list (Row Z)) : Env :=
  {| num := Z;
     fmt_plain := fun z => PyStr.str_of_Z (z / 1000);
     fmt_1f := fun z => tenths (z / 100);
     fmt_pct_1f := tenths;
     all_players := players;
     get_close_matches := close_matches;
     PlayerCareerStats := career_endpoint;
     LeagueLeaders := leaders;
     CommonPlayerInfo := info |}.

Definition env : Env := env_with roster career.

(** The same roster over a failing career endpoint. *)
Definition env_down : Env := env_with roster career_down.

(** A roster whose only player carries the id 0. *)
Definition env_zero : Env :=
  env_with [ {| full_name := "Yao Ming"; id := 0; is_active := false |} ] career.

(** A roster with two players of one name. *)
Definition env_twins : Env :=
  env_with
    [ {| full_name := "Marcus Williams"; id := 200766; is_active := false |};
      {| full_name := "Marcus Williams"; id := 201173; is_active := false |} ]
    career.

(** A bio record with a time in its birth date and without a team. *)
Definition yao_bio (field : string) : option string :=
  if String.eqb field "DISPLAY_FIRST_LAST" then Some "Yao Ming"
  else if String.eqb field "POSITION" then Some "Center"
  else if String.eqb field "TEAM_NAME" then Some EmptyString
  else if String.eqb field "HEIGHT" then Some "7-6"
  else if String.eqb field "WEIGHT" then Some "310"
  else if String.eqb field "BIRTHDATE" then Some "1980-09-12T00:00:00"
  else if String.eqb field "COUNTRY" then Some "China"
  else if String.eqb field "DRAFT_YEAR" then Some "2002"
  else if String.eqb field "DRAFT_ROUND" then Some "1"
  else if String.eqb field "DRAFT_NUMBER" then Some "1"
  else if String.eqb field "SEASON_EXP" then Some "8"
  else None.

(** The sample world with a bio endpoint that answers for Yao Ming and has
    an empty frame for everyone else. *)
Definition env_bio : Env :=
  {| num := Z;
     fmt_plain := fun z => PyStr.str_of_Z (z / 1000);
     fmt_1f := fun z => tenths (z / 100);
     fmt_pct_1f := tenths;
     all_players := roster;
     get_close_matches := close_matches;
     PlayerCareerStats := career;
     LeagueLeaders := leaders;
     CommonPlayerInfo := fun player_id => if player_id =? 2397 then inr [yao_bio] else inr [] |}.

Definition empty_session : SessionState :=
  {| last_player := None; last_season := None |}.

Definition fresh : World := {| session := empty_session; calls := [] |}.

End Sample.

(** * Properties *)

Example lower_example : PyStr.lower "LeBron James 2020" = "lebron james 2020".
Proof. reflexivity. Qed.

Example contains_example :
  PyStr.contains "top" "the top scorers" = true /\ PyStr.contains "ppg" "top" = false
  /\ PyStr.contains EmptyString "abc" = true.
Proof. repeat split; reflexivity. Qed.

Example last2_example :
  PyStr.last2 "2005" = "05" /\ PyStr.last2 "5" = "5" /\ PyStr.str_of_Z 1999 = "1999".
Proof. repeat split; reflexivity. Qed.

Example extract_first_year :
  extract_season_year "compare 1999 and 2010 stats" = Some "1999".
Proof. reflexivity. Qed.

Example extract_needs_boundaries :
  extract_season_year "id 12020 x2021 20222 1899 2023" = Some "2023"
  /\ extract_season_year "what about rebounds" = None.
Proof. split; reflexivity. Qed.

Example season_label_examples :
  season_label (YStr "2022") = Some "2021-22"
  /\ season_label (YInt 2000) = Some "1999-00"
  /\ season_label (YInt 1905) = Some "1904-05"
  /\ season_label (YStr "next") = None.
Proof. repeat split; reflexivity. Qed.

(** The carry-over of the specification: the second turn names neither a
    player nor a year and answers for the stored ones. *)
Example carry_over :
  let '(r1, w1) := generate_response Sample.env "LeBron James points 2020" Sample.fresh in
  let '(r2, w2) := generate_response Sample.env "what about rebounds" w1 in
  r1 = Returned "LeBron James scored 25.3 PPG in the 2019-20 season."
  /\ session w1 = {| last_player := Some "LeBron James"; last_season := Some "2020" |}
  /\ r2 = Returned "LeBron James got 7.8 RPG in the 2019-20 season."
  /\ session w2 = session w1.
Proof. vm_compute. repeat split; reflexivity. Qed.

(** ** The monad: what a computation leaves of the session *)

Section Frame.

Variable env : Env.

Lemma keeps_ret {A} (a : A) : keeps_session (ret a).
Proof. intros w; reflexivity. Qed.

Lemma keeps_raise {A} (e : exn) : keeps_session (@raise A e).
Proof. intros w; reflexivity. Qed.

Lemma keeps_request {A} (c : Call) (r : exn + A) : keeps_session (request c r).
Proof. intros w; reflexivity. Qed.

Lemma keeps_bind {A B} (m : M A) (k : A -> M B) :
  keeps_session m -> (forall a, keeps_session (k a)) -> keeps_session (bind m k).
Proof.
  intros Hm Hk w. unfold bind.
  specialize (Hm w). destruct (m w) as [[a | e] w']; simpl in *.
  - rewrite Hk. exact Hm.
  - exact Hm.
Qed.

Lemma keeps_try {A} (body : M A) (handler : exn -> M A) :
  keeps_session body -> (forall e, keeps_session (handler e)) ->
  keeps_session (try_except body handler).
Proof.
  intros Hb Hh w. unfold try_except.
  specialize (Hb w). destruct (body w) as [[a | e] w']; simpl in *.
  - exact Hb.
  - rewrite Hh. exact Hb.
Qed.

Lemma keeps_of_option {A} (o : option A) (e : exn) : keeps_session (of_option o e).
Proof. destruct o; [apply keeps_ret | apply keeps_raise]. Qed.

Lemma keeps_iloc_last {A} (df : list A) : keeps_session (iloc_last df).
Proof. unfold iloc_last. destruct (rev df); [apply keeps_raise | apply keeps_ret]. Qed.

Lemma keeps_iloc_first {A} (df : list A) : keeps_session (iloc_first df).
Proof. destruct df; [apply keeps_raise | apply keeps_ret]. Qed.

Create HintDb keeps.

#[local] Hint Resolve keeps_ret keeps_raise keeps_request keeps_of_option
     keeps_iloc_last keeps_iloc_first : keeps.

Ltac keeps :=
  repeat first
    [ progress (intros)
    | apply keeps_bind
    | apply keeps_try
    | solve [auto with keeps]
    | match goal with
      | |- keeps_session (match ?x with _ => _ end) => destruct x
      | |- keeps_session (if ?b then _ else _) => destruct b
      end ].

Lemma keeps_get_stats (player_id : option Z) (season_year : option year_arg) :
  keeps_session (get_stats_for_season env player_id season_year).
Proof. unfold get_stats_for_season, season_id_of. keeps. Qed.

Lemma keeps_compare (name1 name2 : string) (season_year : option year_arg) :
  keeps_session (compare_players env name1 name2 season_year).
Proof.
  unfold compare_players.
  destruct (negb _ || negb _)%bool; [apply keeps_ret |].
  apply keeps_bind; [apply keeps_get_stats | intros s1].
  apply keeps_bind; [apply keeps_get_stats | intros s2].
  destruct s1, s2; apply keeps_ret.
Qed.

Lemma keeps_top_scorers (y : year_arg) : keeps_session (get_top_scorers env y).
Proof. unfold get_top_scorers, season_id_of. keeps. Qed.

Lemma keeps_career (player_id : option Z) :
  keeps_session (get_career_averages env player_id).
Proof. unfold get_career_averages. keeps. Qed.

Lemma keeps_bio (name : string) : keeps_session (get_player_bio env name).
Proof. unfold get_player_bio. keeps. Qed.

Lemma keeps_handle (intent : Intent) (season_year : option string) :
  keeps_session (handle env intent season_year).
Proof.
  destruct intent; simpl.
  - destruct season_year as [y |]; [destruct (PyStr.truthy y) |];
      auto using keeps_top_scorers with keeps.
  - destruct (negb _); [apply keeps_ret |].
    apply keeps_bind; [apply keeps_career | intros; apply keeps_ret].
  - apply keeps_bio.
  - apply keeps_compare.
  - apply keeps_bind; [apply keeps_get_stats | intros s].
    unfold season_id_of. keeps.
  - apply keeps_ret.
Qed.

End Frame.

(** ** Entity resolution *)

Lemma year_at_truthy (s y : string) : year_at s = Some y -> PyStr.truthy y = true.
Proof.
  unfold year_at.
  destruct s as [| a [| b [| c [| d rest]]]]; try discriminate.
  destruct (_ && _)%bool; [| discriminate].
  intros H; inversion H; reflexivity.
Qed.

Lemma search_year_unfold (prev : bool) (s : string) :
  search_year prev s
  = match (if prev then None else year_at s) with
    | Some y => Some y
    | None =>
        match s with
        | EmptyString => None
        | String c rest => search_year (PyStr.is_word c) rest
        end
    end.
Proof. destruct s; reflexivity. Qed.

Lemma search_year_truthy (s : string) :
  forall prev y, search_year prev s = Some y -> PyStr.truthy y = true.
Proof.
  induction s as [| c rest IH]; intros prev y; rewrite search_year_unfold;
    destruct (if prev then None else year_at _) as [y' |] eqn:E;
    try discriminate.
  - intros H. assert (Hy : y' = y) by congruence. subst y'.
    destruct prev; [discriminate | eapply year_at_truthy; exact E].
  - intros H. assert (Hy : y' = y) by congruence. subst y'.
    destruct prev; [discriminate | eapply year_at_truthy; exact E].
  - apply IH.
Qed.

Lemma extract_truthy (text y : string) :
  extract_season_year text = Some y -> opt_truthy (Some y) = true.
Proof. unfold extract_season_year. simpl. apply search_year_truthy. Qed.

(** One turn is the handler of the routed intent, run on the session state
    the two resolvers have already committed. *)
Lemma generate_response_unfold (env : Env) (user_input : string) (w : World) :
  generate_response env user_input w
  = handle env (turn_intent env user_input (session w))
           (turn_season user_input (session w))
           {| session := committed env user_input (session w); calls := calls w |}.
Proof.
  destruct w as [[lp ls] cs].
  unfold generate_response, turn_intent, committed, turn_season, turn_player,
    resolve_season, resolve_player, bind.
  simpl.
  destruct (extract_season_year (PyStr.lower user_input)) as [y |] eqn:Ey.
  - rewrite (extract_truthy _ _ Ey). simpl.
    destruct (find_closest_names env user_input 1) as [| first rest]; reflexivity.
  - simpl.
    destruct (find_closest_names env user_input 1) as [| first rest]; reflexivity.
Qed.

(** ** Dialogue state *)

(** C2. After every turn, whatever the handler did (answered, reported a
    failure, or raised), [last_season] is the year of the utterance when it
    has one and is left as it was otherwise, and [last_player] is the closest
    roster name when the fuzzy resolver finds one and is left as it was
    otherwise. *)
Theorem dialogue_state_commit (env : Env) (user_input : string) (w : World) :
  let s' := session (snd (generate_response env user_input w)) in
  last_season s'
  = match extract_season_year (PyStr.lower user_input) with
    | Some y => Some y
    | None => last_season (session w)
    end
  /\ last_player s'
     = match find_closest_names env user_input 1 with
       | first :: _ => Some first
       | [] => last_player (session w)
       end.
Proof.
  cbv zeta. rewrite generate_response_unfold, keeps_handle. simpl. split; reflexivity.
Qed.

(** A query that fails for a real player still stores that player and the
    year. *)
Example failed_turn_is_remembered :
  let '(r, w) := generate_response Sample.env "Stephen Curry rebounds 2019" Sample.fresh in
  r = Returned "❌ Stephen Curry did not play in the 2018-19 season."
  /\ session w = {| last_player := Some "Stephen Curry"; last_season := Some "2019" |}.
Proof. vm_compute. split; reflexivity. Qed.

(** A turn whose handler raises has stored its entities all the same. *)
Example raising_turn_is_remembered :
  let '(r, w) := generate_response Sample.env_down "LeBron James team 2020" Sample.fresh in
  r = Raised (Exn "ReadTimeout" "stats.nba.com read timed out")
  /\ session w = {| last_player := Some "LeBron James"; last_season := Some "2020" |}.
Proof. vm_compute. split; reflexivity. Qed.

(** ** Intent routing *)

(** The conditions of [generate_response] are the rule table read from the
    top. *)
Lemma route_first_match (text : string) (player : option string)
      (found : option (list string)) :
  first_match rule_chain {| in_text := text; in_player := player; in_found := found |}
  = Some (route text player found).
Proof.
  unfold route, rule_chain, first_match; simpl.
  destruct (top_trigger text); [reflexivity |].
  destruct (opt_truthy player); simpl.
  - destruct (career_trigger text); [reflexivity |].
    destruct (bio_trigger text); [reflexivity |].
    destruct found; reflexivity.
  - destruct found; reflexivity.
Qed.

(** In a chain, the rules after the first one whose trigger holds have no
    part in the result. *)
Lemma first_match_prefix (before after : list Rule) (r : Rule) (i : RouterInput) :
  (forall q, In q before -> fst q i = false) ->
  fst r i = true ->
  first_match (before ++ r :: after) i = Some (snd r i).
Proof.
  induction before as [| [t f] before IH]; intros Hb Hr; simpl.
  - destruct r as [t f]; simpl in *. rewrite Hr. reflexivity.
  - pose proof (Hb (t, f) (or_introl eq_refl)) as Ht. simpl in Ht. rewrite Ht.
    apply IH; [| exact Hr].
    intros q Hq. apply Hb. right. exact Hq.
Qed.

(** C1 (as amended). The turn runs the handler of the first rule of the
    chain TopScorers, CareerAverages, Bio, Compare, SeasonStat, unrecognized
    whose trigger holds on the lower-cased utterance, and the rules after it
    do not count: any other tail of the chain gives the same intent.  In
    particular an utterance that contains "career", for which a player is
    resolved and the exact resolver finds two names, and which does not
    trigger TopScorers, is answered by CareerAverages for the resolved
    player, not by Compare. *)
Theorem router_ordered_chain (env : Env) (user_input : string) (w : World) :
  let text := PyStr.lower user_input in
  let player := turn_player env user_input (session w) in
  let found := find_multiple_players env text in
  let i := {| in_text := text; in_player := player; in_found := found |} in
  let intent := turn_intent env user_input (session w) in
  first_match rule_chain i = Some intent
  /\ generate_response env user_input w
     = handle env intent (turn_season user_input (session w))
              {| session := committed env user_input (session w); calls := calls w |}
  /\ (forall before r after other,
        rule_chain = (before ++ r :: after)%list ->
        (forall q, In q before -> fst q i = false) ->
        fst r i = true ->
        intent = snd r i /\ first_match (before ++ r :: other) i = Some intent)
  /\ (PyStr.contains "career" text = true ->
      opt_truthy player = true ->
      is_some found = true ->
      top_trigger text = false ->
      intent = CareerAverages (name_text player)).
Proof.
  cbv zeta. split; [apply route_first_match |].
  split; [apply generate_response_unfold |].
  split.
  - intros before r after other Hchain Hbefore Hr.
    assert (Hi : turn_intent env user_input (session w)
                 = snd r {| in_text := PyStr.lower user_input;
                            in_player := turn_player env user_input (session w);
                            in_found := find_multiple_players env (PyStr.lower user_input) |}).
    { pose proof (route_first_match (PyStr.lower user_input)
                    (turn_player env user_input (session w))
                    (find_multiple_players env (PyStr.lower user_input))) as H.
      rewrite Hchain, (first_match_prefix _ _ _ _ Hbefore Hr) in H.
      unfold turn_intent. congruence. }
    split; [exact Hi |].
    rewrite Hi. apply first_match_prefix; assumption.
  - intros Hcareer Hplayer _ Htop.
    unfold turn_intent, route, career_trigger.
    rewrite Htop, Hplayer, Hcareer. reflexivity.
Qed.

(** The theorem at an utterance with "career" and two roster names. *)
Lemma router_ordered_chain_witness :
  PyStr.contains "career" (PyStr.lower "Giannis Antetokounmpo Yao Ming career") = true
  /\ turn_player Sample.env "Giannis Antetokounmpo Yao Ming career" Sample.empty_session
     = Some "Giannis Antetokounmpo"
  /\ find_multiple_players Sample.env (PyStr.lower "Giannis Antetokounmpo Yao Ming career")
     = Some ["Giannis Antetokounmpo"; "Yao Ming"]
  /\ top_trigger (PyStr.lower "Giannis Antetokounmpo Yao Ming career") = false
  /\ turn_intent Sample.env "Giannis Antetokounmpo Yao Ming career" Sample.empty_session
     = CareerAverages "Giannis Antetokounmpo".
Proof.
  do 4 (split; [reflexivity |]).
  apply (proj2 (proj2 (proj2
           (router_ordered_chain Sample.env "Giannis Antetokounmpo Yao Ming career"
                                 Sample.fresh))));
    reflexivity.
Defined.

(** C1 as stated fails: this utterance contains "career", a player is
    resolved from it and the exact resolver finds two roster names, yet it
    also triggers the TopScorers rule, which stands first; the turn is a
    TopScorers turn and asks for a year. *)
Lemma career_with_top_trigger_is_top_scorers :
  PyStr.contains "career" (PyStr.lower "Giannis Antetokounmpo Yao Ming top ppg career")
  = true
  /\ find_closest_names Sample.env "Giannis Antetokounmpo Yao Ming top ppg career" 1
     = ["Giannis Antetokounmpo"]
  /\ turn_player Sample.env "Giannis Antetokounmpo Yao Ming top ppg career"
       Sample.empty_session
     = Some "Giannis Antetokounmpo"
  /\ find_multiple_players Sample.env
       (PyStr.lower "Giannis Antetokounmpo Yao Ming top ppg career")
     = Some ["Giannis Antetokounmpo"; "Yao Ming"]
  /\ turn_intent Sample.env "Giannis Antetokounmpo Yao Ming top ppg career"
       Sample.empty_session
     = TopScorers
  /\ turn_intent Sample.env "Giannis Antetokounmpo Yao Ming top ppg career"
       Sample.empty_session
     <> CareerAverages "Giannis Antetokounmpo"
  /\ fst (generate_response Sample.env "Giannis Antetokounmpo Yao Ming top ppg career"
            Sample.fresh)
     = Returned "Please specify a year, like 'Top scorers 2022'.".
Proof.
  do 5 (split; [reflexivity |]).
  split; [vm_compute; discriminate | reflexivity].
Qed.

(** ** The exact multi-match resolver *)

Section MultiMatch.

Variable env : Env.
Variable text : string.

(** The loop keeps the first two roster names that occur in the text. *)
Lemma scan_names_firstn (names found : list string) :
  (length found <= 1)%nat ->
  scan_names names text found = firstn 2 (found ++ filter (name_present text) names)%list.
Proof.
  revert found.
  induction names as [| name rest IH]; intros found Hlen.
  - simpl. rewrite app_nil_r.
    destruct found as [| a [| b l]]; simpl in *; [reflexivity | reflexivity | lia].
  - cbn [scan_names filter]. fold (name_present text name).
    destruct (name_present text name).
    + destruct found as [| a [| b l]]; simpl in Hlen; try lia.
      * simpl. rewrite IH by (simpl; lia). reflexivity.
      * reflexivity.
    + destruct found as [| a [| b l]]; simpl in Hlen; try lia.
      * simpl. rewrite IH by (simpl; lia). reflexivity.
      * simpl. rewrite IH by (simpl; lia). reflexivity.
Qed.

Lemma find_multiple_players_spec :
  find_multiple_players env text
  = match names_present env text with
    | a :: b :: _ => Some [a; b]
    | _ => None
    end.
Proof.
  unfold find_multiple_players, names_present.
  rewrite scan_names_firstn by (simpl; lia). simpl.
  destruct (filter (name_present text) (player_names env)) as [| a [| b l]];
    reflexivity.
Qed.

End MultiMatch.





(** ** Season labels *)

Lemma label_as_specified_range :
  forallb (fun n => label_as_specified (Z.of_nat n)) (seq 10 (Z.to_nat 9990)) = true.
Proof. vm_compute. reflexivity. Qed.

(** C5 (as amended). For every integer year from 10 to 9999 the season
    label is defined and is the decimal of the year before, a hyphen, and
    the last two digits of the year, zero-padded to two digits. *)
Theorem season_label_of_year (y : Z) :
  10 <= y <= 9999 ->
  season_label (YInt y)
  = Some (PyStr.str_of_Z (y - 1) ++ "-" ++ two_digit_suffix y).
Proof.
  intros Hy.
  pose proof label_as_specified_range as H.
  rewrite forallb_forall in H.
  specialize (H (Z.to_nat y)).
  rewrite Z2Nat.id in H by lia.
  assert (Hin : In (Z.to_nat y) (seq 10 (Z.to_nat 9990))) by (apply in_seq; lia).
  specialize (H Hin). unfold label_as_specified in H.
  destruct (season_label (YInt y)) as [label |]; [| discriminate].
  apply String.eqb_eq in H. congruence.
Qed.

Lemma season_label_of_year_witness :
  10 <= 2022 <= 9999 /\ season_label (YInt 2022) = Some "2021-22".
Proof.
  split; [lia |]. apply (season_label_of_year 2022). lia.
Defined.

(** C5 as stated fails below 10: the suffix is the last two characters of
    the decimal of the year, and a one-digit year has only one. *)
Lemma season_label_one_digit_year :
  1 <= 5 <= 9999
  /\ season_label (YInt 5) = Some "4-5"
  /\ PyStr.str_of_Z (5 - 1) ++ "-" ++ two_digit_suffix 5 = "4-05"
  /\ season_label (YInt 5)
     <> Some (PyStr.str_of_Z (5 - 1) ++ "-" ++ two_digit_suffix 5).
Proof.
  split; [lia |]. split; [reflexivity |]. split; [reflexivity |].
  vm_compute. discriminate.
Qed.

(** The labels the specification lists, and the years the chatbot passes,
    which are the strings the regular expression matched. *)
Example season_label_listed :
  season_label (YInt 2022) = Some "2021-22"
  /\ season_label (YInt 2000) = Some "1999-00"
  /\ season_label (YInt 1905) = Some "1904-05"
  /\ season_label (YStr "2005") = Some "2004-05".
Proof. repeat split; reflexivity. Qed.

(** ** Substrings of the messages *)

Lemma prefix_app (needle post : string) : String.prefix needle (needle ++ post) = true.
Proof.
  induction needle as [| c needle IH]; simpl.
  - destruct post; reflexivity.
  - destruct (Ascii.ascii_dec c c) as [_ | N]; [exact IH | contradiction].
Qed.

Lemma append_assoc_str (a b c : string) : (a ++ b) ++ c = a ++ (b ++ c).
Proof. induction a as [| x a IH]; simpl; [reflexivity | rewrite IH; reflexivity]. Qed.

Lemma contains_unfold (needle hay : string) :
  PyStr.contains needle hay
  = if String.prefix needle hay then true
    else match hay with
         | EmptyString => false
         | String _ rest => PyStr.contains needle rest
         end.
Proof. destruct hay; reflexivity. Qed.

(** A text occurs in every message it was interpolated into. *)
Lemma contains_app (needle pre post : string) :
  PyStr.contains needle (pre ++ needle ++ post) = true.
Proof.
  induction pre as [| c pre IH].
  - change (EmptyString ++ needle ++ post) with (needle ++ post).
    rewrite contains_unfold, prefix_app. reflexivity.
  - change (String c pre ++ needle ++ post) with (String c (pre ++ needle ++ post)).
    rewrite contains_unfold, IH.
    destruct (String.prefix needle _); reflexivity.
Qed.

(** ** Single-season statistics *)

(** The failure message of a season miss names the season label. *)
Lemma did_not_play_names_label (player label : string) :
  PyStr.contains label (did_not_play player label) = true.
Proof.
  unfold did_not_play.
  rewrite <- (append_assoc_str player), <- (append_assoc_str "❌ ").
  apply contains_app.
Qed.

Lemma iloc_last_snoc {A} (rows : list A) (row : A) (w : World) :
  iloc_last (rows ++ [row]) w = (Returned row, w).
Proof. unfold iloc_last. rewrite rev_unit. reflexivity. Qed.

(** [get_stats_for_season] when a season is given and the endpoint answers:
    the first row whose label is exactly the computed one, or [None]. *)
Lemma get_stats_with_season (env : Env) (player_id : option Z) (y : year_arg)
      (label : string) (df : list (Row (num env))) (w : World) :
  PlayerCareerStats env player_id = inr df ->
  year_truthy y = true ->
  season_label y = Some label ->
  get_stats_for_season env player_id (Some y) w
  = (Returned (match rows_of_season env label df with
               | [] => None
               | row :: _ => Some (stats_of_row env row)
               end),
     {| session := session w; calls := calls w ++ [CallCareerStats player_id] |}).
Proof.
  intros Hdf Hy Hlabel.
  unfold get_stats_for_season, bind, request, season_id_of.
  rewrite Hdf, Hy, Hlabel. simpl.
  destruct (rows_of_season env label df); reflexivity.
Qed.

(** [get_stats_for_season] without a season: the last row of the table. *)
Lemma get_stats_without_season (env : Env) (player_id : option Z)
      (season_year : option year_arg) (rows : list (Row (num env)))
      (row : Row (num env)) (w : World) :
  PlayerCareerStats env player_id = inr (rows ++ [row])%list ->
  opt_year_truthy season_year = false ->
  get_stats_for_season env player_id season_year w
  = (Returned (Some (stats_of_row env row)),
     {| session := session w; calls := calls w ++ [CallCareerStats player_id] |}).
Proof.
  intros Hdf Hy.
  unfold get_stats_for_season, bind, request.
  rewrite Hdf.
  destruct season_year as [y |]; simpl in Hy; [rewrite Hy |];
    rewrite iloc_last_snoc; reflexivity.
Qed.

(** C6. In a SeasonStat turn whose career table the backend delivers: when
    a season is resolved, the row used is the first one whose label is
    exactly the computed season label; when there is none the answer is the
    failure message naming that label, whatever other seasons the table
    holds; when no season is resolved the last row of the table is used. *)
Theorem season_stat_exact_label (env : Env) (user_input : string) (w : World)
        (player : string) (sub : Subfield) (df : list (Row (num env))) :
  turn_intent env user_input (session w) = SeasonStat player sub ->
  PlayerCareerStats env (find_player_id env player) = inr df ->
  let result := fst (generate_response env user_input w) in
  (forall y label,
      turn_season user_input (session w) = Some y ->
      PyStr.truthy y = true ->
      season_label (YStr y) = Some label ->
      match rows_of_season env label df with
      | [] =>
          result = Returned (did_not_play player label)
          /\ PyStr.contains label (did_not_play player label) = true
      | row :: _ =>
          result = Returned (stat_text env sub player (stats_of_row env row))
          /\ SEASON_ID row = label
      end)
  /\ (forall rows row,
        opt_truthy (turn_season user_input (session w)) = false ->
        df = (rows ++ [row])%list ->
        result = Returned (stat_text env sub player (stats_of_row env row))).
Proof.
  intros Hintent Hdf. cbv zeta.
  rewrite generate_response_unfold, Hintent.
  split.
  - intros y label Hseason Hy Hlabel.
    rewrite Hseason. unfold handle, bind. simpl option_map.
    rewrite (get_stats_with_season env _ (YStr y) label df _ Hdf Hy Hlabel).
    destruct (rows_of_season env label df) as [| row rest] eqn:Hrows.
    + rewrite Hy. unfold season_id_of. rewrite Hlabel. simpl.
      split; [reflexivity | apply did_not_play_names_label].
    + simpl. split; [reflexivity |].
      assert (Hin : In row (rows_of_season env label df))
        by (rewrite Hrows; left; reflexivity).
      apply filter_In in Hin. destruct Hin as [_ Heq].
      apply String.eqb_eq. exact Heq.
  - intros rows row Hfalsy ->.
    unfold handle, bind.
    rewrite (get_stats_without_season env _ _ rows row _ Hdf).
    + reflexivity.
    + destruct (turn_season user_input (session w)); simpl in *; assumption.
Qed.

(** The theorem on a season Stephen Curry has no row for, and on a turn
    without a season. *)
Lemma season_stat_exact_label_witness :
  turn_intent Sample.env "Stephen Curry rebounds 2019" Sample.empty_session
  = SeasonStat "Stephen Curry" SubRebounds
  /\ PlayerCareerStats Sample.env (find_player_id Sample.env "Stephen Curry")
     = inr Sample.curry
  /\ fst (generate_response Sample.env "Stephen Curry rebounds 2019" Sample.fresh)
     = Returned "❌ Stephen Curry did not play in the 2018-19 season."
  /\ fst (generate_response Sample.env "Stephen Curry rebounds" Sample.fresh)
     = Returned "Stephen Curry got 5.5 RPG in the 2020-21 season.".
Proof.
  split; [reflexivity |]. split; [reflexivity |]. split.
  - pose proof (season_stat_exact_label Sample.env "Stephen Curry rebounds 2019"
                  Sample.fresh "Stephen Curry" SubRebounds Sample.curry
                  eq_refl eq_refl) as [H _].
    specialize (H "2019" "2018-19" eq_refl eq_refl eq_refl).
    destruct H as [H _]. exact H.
  - pose proof (season_stat_exact_label Sample.env "Stephen Curry rebounds"
                  Sample.fresh "Stephen Curry" SubRebounds Sample.curry
                  eq_refl eq_refl) as [_ H].
    apply (H [Sample.row "2019-20" "GSW" 20800 6600 5200 5000 402]
             (Sample.row "2020-21" "GSW" 32000 5800 5500 63000 482));
      reflexivity.
Defined.

(** LeBron James has a row for 2019-20 and none for 2020-21: asked for 2021,
    the chatbot does not fall back on the season next to it. *)
Example no_nearest_season :
  fst (generate_response Sample.env "LeBron James points 2021" Sample.fresh)
  = Returned "❌ LeBron James did not play in the 2020-21 season.".
Proof. reflexivity. Qed.

(** ** Top scorers *)

(** C7. An utterance that triggers TopScorers, has no year in it and comes
    with no stored season is answered with the request for a year, and no
    request reaches the backend. *)
Theorem top_scorers_needs_season (env : Env) (user_input : string) (w : World) :
  top_trigger (PyStr.lower user_input) = true ->
  extract_season_year (PyStr.lower user_input) = None ->
  last_season (session w) = None ->
  fst (generate_response env user_input w) = Returned prompt_for_year
  /\ calls (snd (generate_response env user_input w)) = calls w.
Proof.
  intros Htop Hyear Hstored.
  rewrite generate_response_unfold.
  unfold turn_intent, route, turn_season.
  rewrite Htop, Hyear, Hstored. simpl. split; reflexivity.
Qed.

Lemma top_scorers_needs_season_witness :
  top_trigger (PyStr.lower "Top scorers") = true
  /\ extract_season_year (PyStr.lower "Top scorers") = None
  /\ fst (generate_response Sample.env "Top scorers" Sample.fresh)
     = Returned "Please specify a year, like 'Top scorers 2022'."
  /\ calls (snd (generate_response Sample.env "Top scorers" Sample.fresh)) = [].
Proof.
  split; [reflexivity |]. split; [reflexivity |].
  apply (top_scorers_needs_season Sample.env "Top scorers" Sample.fresh); reflexivity.
Defined.

(** With a season, the same utterance sends one request, and a failure of
    the endpoint is caught. *)
Example top_scorers_with_season :
  generate_response Sample.env "top scorers 2020" Sample.fresh
  = (Returned (leaders_table Sample.env "PTS" "2019-20"
                 [ {| PLAYER := "James Harden"; TEAM := "HOU"; LEADER_PTS := 34300 |} ]),
     {| session := {| last_player := None; last_season := Some "2020" |};
        calls := [CallLeagueLeaders "2019-20"] |})
  /\ fst (generate_response Sample.env "top scorers 2021" Sample.fresh)
     = Returned "Couldn't fetch top PTS leaders for 2020-21.".
Proof. split; reflexivity. Qed.

(** ** Career averages *)

(** C8. The career summary of a player is made of the fields of the last
    row of the career table the backend delivers, whatever the rows before
    it are; the CareerAverages turn prints that row. *)
Theorem career_is_last_row (env : Env) (player_id : option Z)
        (rows : list (Row (num env))) (row : Row (num env)) (w : World) :
  PlayerCareerStats env player_id = inr (rows ++ [row])%list ->
  exists career,
    fst (get_career_averages env player_id w) = Returned career
    /\ career_pts env career = PTS row
    /\ career_ast env career = AST row
    /\ career_reb env career = REB row
    /\ career_games env career = GP row
    /\ career_fg_pct env career = FG_PCT row
    /\ forall player season_year,
        find_player_id env player = player_id ->
        id_truthy player_id = true ->
        fst (handle env (CareerAverages player) season_year w)
        = Returned (career_text env player career).
Proof.
  intros Hdf.
  assert (Hrun : get_career_averages env player_id w
                 = (Returned (career_of_row env row),
                    {| session := session w;
                       calls := (calls w ++ [CallCareerStats player_id])%list |})).
  { unfold get_career_averages, bind, request. rewrite Hdf.
    rewrite iloc_last_snoc. reflexivity. }
  exists (career_of_row env row).
  rewrite Hrun. repeat (split; [reflexivity |]).
  intros player season_year Hid Htruthy.
  unfold handle, bind. cbv zeta. rewrite Hid, Htruthy. cbn [negb]. cbv beta.
  rewrite Hrun. reflexivity.
Qed.

(** LeBron James in the sample world: 25.3 points in his last season, 27.4
    in the one before; the summary shows 25.3, not their mean. *)
Lemma career_is_last_row_witness :
  PlayerCareerStats Sample.env (Some 2544)
  = inr ([Sample.row "2018-19" "LAL" 27400 8300 8500 55000 510]
         ++ [Sample.row "2019-20" "LAL" 25300 10200 7800 67000 493])%list
  /\ exists career,
      fst (get_career_averages Sample.env (Some 2544) Sample.fresh) = Returned career
      /\ career_pts Sample.env career = 25300.
Proof.
  split; [reflexivity |].
  destruct (career_is_last_row Sample.env (Some 2544)
              [Sample.row "2018-19" "LAL" 27400 8300 8500 55000 510]
              (Sample.row "2019-20" "LAL" 25300 10200 7800 67000 493)
              Sample.fresh eq_refl) as [career [Hrun [Hpts _]]].
  exists career. split; [exact Hrun | exact Hpts].
Defined.

Example career_turn :
  fst (generate_response Sample.env "LeBron James career" Sample.fresh)
  = Returned (career_text Sample.env "LeBron James"
                (career_of_row Sample.env
                   (Sample.row "2019-20" "LAL" 25300 10200 7800 67000 493)))
  /\ PyStr.contains "- PPG: 25.3"
       (career_text Sample.env "LeBron James"
          (career_of_row Sample.env
             (Sample.row "2019-20" "LAL" 25300 10200 7800 67000 493))) = true.
Proof. split; reflexivity. Qed.

(** ** Comparison *)





(** ** Roster names and their ids *)

Lemma find_id_in_roster (ps : list Player) (name : string) :
  In name (map full_name ps) ->
  exists p, In p ps /\ find_id_in ps name = Some (id p).
Proof.
  induction ps as [| q ps IH]; simpl; [contradiction |].
  intros Hin.
  destruct (String.eqb (PyStr.lower (full_name q)) (PyStr.lower name)) eqn:E.
  - exists q. split; [left; reflexivity | reflexivity].
  - destruct Hin as [Hq | Hin].
    + rewrite Hq, String.eqb_refl in E. discriminate.
    + destruct (IH Hin) as [p [Hp Hfind]].
      exists p. split; [right; exact Hp | exact Hfind].
Qed.

Lemma found_names_in_roster (env : Env) (text : string) (found : list string)
      (name : string) :
  find_multiple_players env text = Some found ->
  In name found -> In name (player_names env).
Proof.
  rewrite find_multiple_players_spec.
  destruct (names_present env text) as [| a [| b l]] eqn:E; try discriminate.
  intros H; inversion H; subst found. intros Hin.
  assert (Hp : In name (names_present env text)).
  { rewrite E. simpl in *. tauto. }
  unfold names_present in Hp. apply filter_In in Hp. tauto.
Qed.

(** C10. Every name of the roster list has an id: [find_player_id] returns
    the id of a roster player, never none, and so for every name the exact
    multi-match resolver returns and for the name the fuzzy resolver returns.
    After a successful fuzzy resolution the "player not found" test of the
    CareerAverages branch is therefore false and the career lookup runs.
    Two facts about the collaborators are hypotheses of the parts that need
    them: [get_close_matches] draws its answers from the list it is given,
    and no roster id is 0 (the ids of [players.get_players()] are positive
    person ids; the test, [if not pid], is on the truth value of the id). *)
Theorem roster_names_resolve (env : Env) :
  (forall name,
      In name (player_names env) ->
      exists p, In p (all_players env) /\ find_player_id env name = Some (id p))
  /\ (forall text found name,
        find_multiple_players env text = Some found ->
        In name found ->
        exists p, In p (all_players env) /\ find_player_id env name = Some (id p))
  /\ ((forall word n name,
          In name (get_close_matches env word (player_names env) n) ->
          In name (player_names env)) ->
      forall user_input first rest,
        find_closest_names env user_input 1 = (first :: rest)%list ->
        (exists p, In p (all_players env) /\ find_player_id env first = Some (id p))
        /\ ((forall p, In p (all_players env) -> id p <> 0) ->
            id_truthy (find_player_id env first) = true
            /\ forall season_year w,
                handle env (CareerAverages first) season_year w
                = bind (get_career_averages env (find_player_id env first))
                       (fun career => ret (career_text env first career)) w)).
Proof.
  assert (Hroster : forall name,
             In name (player_names env) ->
             exists p, In p (all_players env) /\ find_player_id env name = Some (id p)).
  { intros name Hin. apply find_id_in_roster. exact Hin. }
  split; [exact Hroster |].
  split.
  - intros text found name Hfound Hin.
    apply Hroster. eapply found_names_in_roster; eassumption.
  - intros Hlib user_input first rest Hclose.
    assert (Hin : In first (player_names env)).
    { apply (Hlib user_input 1%nat). unfold find_closest_names in Hclose.
      rewrite Hclose. left. reflexivity. }
    destruct (Hroster first Hin) as [p [Hp Hid]].
    split; [exists p; split; assumption |].
    intros Hnonzero.
    assert (Htruthy : id_truthy (find_player_id env first) = true).
    { rewrite Hid. simpl. apply negb_true_iff. apply Z.eqb_neq. apply Hnonzero. exact Hp. }
    split; [exact Htruthy |].
    intros season_year w. unfold handle. cbv zeta. rewrite Htruthy. reflexivity.
Qed.

Lemma close_matches_in_possibilities (word : string) (possibilities : list string)
      (n : nat) (name : string) :
  In name (Sample.close_matches word possibilities n) -> In name possibilities.
Proof.
  unfold Sample.close_matches. intros H.
  assert (Hf : In name (filter (fun name0 =>
                 (PyStr.contains name0 word
                  && Nat.leb (String.length word) (3 * String.length name0))%bool)
               possibilities)).
  { rewrite <- (firstn_skipn n). apply in_or_app. left. exact H. }
  apply filter_In in Hf. tauto.
Qed.

Lemma sample_ids_nonzero (p : Player) : In p (all_players Sample.env) -> id p <> 0.
Proof.
  simpl. intros [<- | [<- | [<- | [<- | [<- | []]]]]]; simpl; lia.
Qed.

Lemma roster_names_resolve_witness :
  In "Stephen Curry" (player_names Sample.env)
  /\ find_closest_names Sample.env "Stephen Curry career" 1 = ["Stephen Curry"]
  /\ (exists p, In p (all_players Sample.env)
                /\ find_player_id Sample.env "Stephen Curry" = Some (id p))
  /\ id_truthy (find_player_id Sample.env "Stephen Curry") = true.
Proof.
  split; [simpl; tauto |]. split; [reflexivity |].
  destruct (roster_names_resolve Sample.env) as [Hroster [_ Hfuzzy]].
  split.
  - apply Hroster. simpl. tauto.
  - destruct (Hfuzzy (fun word n name => close_matches_in_possibilities word _ n name)
                "Stephen Curry career" "Stephen Curry" [] eq_refl) as [_ H].
    destruct (H sample_ids_nonzero) as [Htruthy _]. exact Htruthy.
Defined.

(** Why the theorem asks for ids other than 0.  In the model an id is any
    integer; the roster of the program holds positive ids only, and on a
    roster with the id 0, which the program does not receive, the test
    [if not pid] would take that id for a missing one. *)
Lemma zero_id_reaches_not_found :
  In "Yao Ming" (player_names Sample.env_zero)
  /\ find_closest_names Sample.env_zero "Yao Ming career" 1 = ["Yao Ming"]
  /\ find_player_id Sample.env_zero "Yao Ming" = Some 0
  /\ find_player_id Sample.env_zero "Yao Ming" <> None
  /\ fst (generate_response Sample.env_zero "Yao Ming career" Sample.fresh)
     = Returned "Player Yao Ming not found.".
Proof.
  split; [left; reflexivity |]. do 2 (split; [reflexivity |]).
  split; [vm_compute; discriminate | reflexivity].
Qed.

(** ** Exceptions of the backend *)

(** C4 (not met by the code). [get_top_scorers] and [get_player_bio] catch
    what their endpoint raises, but [get_career_averages] and
    [get_stats_for_season] call the career endpoint outside any [try]: in a
    CareerAverages or SeasonStat turn an exception of that endpoint leaves
    [generate_response] as it was raised, and no failure text is returned. *)
Theorem career_exception_escapes (env : Env) (user_input : string) (w : World)
        (player : string) (e : exn) :
  PlayerCareerStats env (find_player_id env player) = inl e ->
  (turn_intent env user_input (session w) = CareerAverages player ->
   id_truthy (find_player_id env player) = true ->
   fst (generate_response env user_input w) = Raised e)
  /\ (forall sub,
        turn_intent env user_input (session w) = SeasonStat player sub ->
        fst (generate_response env user_input w) = Raised e).
Proof.
  intros Hraise. split.
  - intros Hintent Htruthy.
    rewrite generate_response_unfold, Hintent.
    unfold handle, get_career_averages, bind, request. cbv zeta.
    rewrite Htruthy, Hraise. reflexivity.
  - intros sub Hintent.
    rewrite generate_response_unfold, Hintent.
    unfold handle, get_stats_for_season, bind, request.
    rewrite Hraise. reflexivity.
Qed.

Lemma career_exception_escapes_witness :
  PlayerCareerStats Sample.env_down (find_player_id Sample.env_down "LeBron James")
  = inl (Exn "ReadTimeout" "stats.nba.com read timed out")
  /\ fst (generate_response Sample.env_down "LeBron James career" Sample.fresh)
     = Raised (Exn "ReadTimeout" "stats.nba.com read timed out")
  /\ fst (generate_response Sample.env_down "LeBron James points 2020" Sample.fresh)
     = Raised (Exn "ReadTimeout" "stats.nba.com read timed out").
Proof.
  split; [reflexivity |]. split.
  - apply (proj1 (career_exception_escapes Sample.env_down "LeBron James career"
                    Sample.fresh "LeBron James" _ eq_refl));
      reflexivity.
  - apply (proj2 (career_exception_escapes Sample.env_down "LeBron James points 2020"
                    Sample.fresh "LeBron James" _ eq_refl) SubPoints).
    reflexivity.
Defined.

(** The two handlers that do catch: a failing leaders or bio endpoint gives
    a failure text. *)
Example wrapped_endpoints :
  fst (generate_response Sample.env "top scorers 2021" Sample.fresh)
  = Returned "Couldn't fetch top PTS leaders for 2020-21."
  /\ fst (generate_response Sample.env "LeBron James bio" Sample.fresh)
     = Returned ("❌ Could not fetch detailed bio for LeBron James. "
                 ++ "Error: stats.nba.com read timed out").
Proof. split; reflexivity. Qed.

(** * Further properties of the code *)

(** ** The year of an utterance *)

Lemma year_at_spec (s y : string) :
  year_at s = Some y ->
  year_shaped y = true /\ exists post, s = y ++ post /\ starts_nonword post = true.
Proof.
  unfold year_at.
  destruct s as [| a [| b [| c [| d rest]]]]; try discriminate.
  destruct (_ && _)%bool eqn:E; [| discriminate].
  intros H; inversion H; subst y; clear H.
  apply andb_true_iff in E. destruct E as [E Hclosing].
  split; [exact E |].
  exists rest. split; [reflexivity | exact Hclosing].
Qed.

Lemma year_at_complete (y post : string) :
  year_shaped y = true -> starts_nonword post = true -> year_at (y ++ post) = Some y.
Proof.
  destruct y as [| a [| b [| c [| d [| e y]]]]]; try discriminate.
  intros Hy Hpost. simpl in Hy. simpl.
  unfold starts_nonword in Hpost. rewrite Hy. simpl.
  destruct post; rewrite ?Hpost; reflexivity.
Qed.

Lemma search_year_sound (s : string) :
  forall prev y,
    search_year prev s = Some y ->
    year_shaped y = true
    /\ exists pre post,
        s = pre ++ y ++ post
        /\ ends_nonword prev pre = true /\ starts_nonword post = true.
Proof.
  induction s as [| c rest IH]; intros prev y; rewrite search_year_unfold;
    destruct (if prev then None else year_at _) as [y' |] eqn:E;
    try discriminate.
  - intros H. assert (Hy : y' = y) by congruence. subst y'.
    destruct prev; [discriminate |].
    destruct (year_at_spec _ _ E) as [Hshape [post [Hs Hpost]]].
    split; [exact Hshape |]. exists EmptyString, post. auto.
  - intros H. assert (Hy : y' = y) by congruence. subst y'.
    destruct prev; [discriminate |].
    destruct (year_at_spec _ _ E) as [Hshape [post [Hs Hpost]]].
    split; [exact Hshape |]. exists EmptyString, post. auto.
  - intros H. destruct (IH _ _ H) as [Hshape [pre [post [Hs [Hpre Hpost]]]]].
    split; [exact Hshape |].
    exists (String c pre), post. simpl. rewrite Hs. auto.
Qed.

Lemma extract_year_shaped (text y : string) :
  extract_season_year text = Some y -> year_shaped y = true.
Proof. intros H. apply (search_year_sound text false y H). Qed.

(** X1. A year [extract_season_year] returns is four characters, 19 or 20
    followed by two digits, and stands in the text between word boundaries:
    at its start or after a non-word character, and at its end or before a
    non-word character. *)
Theorem extract_season_year_sound (text y : string) :
  extract_season_year text = Some y ->
  year_shaped y = true
  /\ exists pre post,
      text = pre ++ y ++ post
      /\ ends_nonword false pre = true /\ starts_nonword post = true.
Proof. apply search_year_sound. Qed.

Lemma extract_season_year_sound_witness :
  extract_season_year "stats for 2016, please" = Some "2016"
  /\ year_shaped "2016" = true
  /\ exists pre post,
      "stats for 2016, please" = pre ++ "2016" ++ post
      /\ ends_nonword false pre = true /\ starts_nonword post = true.
Proof.
  split; [reflexivity |].
  apply (extract_season_year_sound "stats for 2016, please" "2016"). reflexivity.
Defined.

Lemma search_year_leftmost (pre : string) :
  forall prev y post,
    year_shaped y = true ->
    ends_nonword prev pre = true ->
    starts_nonword post = true ->
    exists y' pre' post',
      search_year prev (pre ++ y ++ post) = Some y'
      /\ pre ++ y ++ post = pre' ++ y' ++ post'
      /\ (String.length pre' <= String.length pre)%nat.
Proof.
  induction pre as [| c pre IH]; intros prev y post Hy Hpre Hpost.
  - simpl in Hpre. destruct prev; [discriminate |].
    exists y, EmptyString, post. simpl.
    rewrite search_year_unfold, (year_at_complete _ _ Hy Hpost). auto.
  - simpl in Hpre.
    change (String c pre ++ y ++ post) with (String c (pre ++ y ++ post)).
    rewrite search_year_unfold.
    destruct (if prev then None else year_at _) as [y1 |] eqn:E.
    + destruct prev; [discriminate |].
      destruct (year_at_spec _ _ E) as [_ [post1 [Hs _]]].
      exists y1, EmptyString, post1. simpl. split; [reflexivity |].
      split; [exact Hs | lia].
    + destruct (IH (PyStr.is_word c) y post Hy Hpre Hpost)
        as [y' [pre' [post' [Hfound [Hs Hlen]]]]].
      exists y', (String c pre'), post'.
      split; [exact Hfound |].
      split; [simpl; rewrite Hs; reflexivity | simpl; lia].
Qed.

(** The year [search_year] returns is a match, and no match stands to the
    left of it. *)
Lemma search_year_first (s : string) :
  forall prev found,
    search_year prev s = Some found ->
    exists before after,
      s = before ++ found ++ after
      /\ year_shaped found = true
      /\ ends_nonword prev before = true
      /\ starts_nonword after = true
      /\ forall pre y post,
          s = pre ++ y ++ post ->
          year_shaped y = true ->
          ends_nonword prev pre = true ->
          starts_nonword post = true ->
          (String.length before <= String.length pre)%nat.
Proof.
  induction s as [| c rest IH]; intros prev found; rewrite search_year_unfold;
    destruct (if prev then None else year_at _) as [y' |] eqn:E;
    try discriminate.
  - intros H. assert (Hy : y' = found) by congruence. subst y'.
    destruct prev; [discriminate |].
    destruct (year_at_spec _ _ E) as [Hshape [after [Hs Hafter]]].
    exists EmptyString, after. repeat split; auto. intros; simpl; lia.
  - intros H. assert (Hy : y' = found) by congruence. subst y'.
    destruct prev; [discriminate |].
    destruct (year_at_spec _ _ E) as [Hshape [after [Hs Hafter]]].
    exists EmptyString, after. repeat split; auto. intros; simpl; lia.
  - intros H.
    destruct (IH _ _ H) as [before [after [Hs [Hshape [Hbefore [Hafter Hfirst]]]]]].
    exists (String c before), after.
    split; [simpl; rewrite Hs; reflexivity |].
    split; [exact Hshape |]. split; [exact Hbefore |]. split; [exact Hafter |].
    intros pre y post Hsplit Hy Hpre Hpost.
    destruct pre as [| c0 pre0].
    + simpl in Hpre. destruct prev; [discriminate |].
      simpl in Hsplit. rewrite Hsplit, (year_at_complete _ _ Hy Hpost) in E.
      discriminate.
    + simpl in Hsplit. inversion Hsplit; subst c0.
      simpl in Hpre. simpl.
      apply le_n_S. apply (Hfirst pre0 y post); assumption.
Qed.

(** X2. On an ASCII text, [extract_season_year] returns the leftmost year:
    what it returns stands in the text between word boundaries, and every
    year that stands in the text between word boundaries starts at the same
    place or further right; it returns none only if the text holds no such
    year. *)
Theorem extract_season_year_leftmost (text : string) :
  ascii_text text = true ->
  match extract_season_year text with
  | Some found =>
      exists before after,
        text = before ++ found ++ after
        /\ year_shaped found = true
        /\ ends_nonword false before = true
        /\ starts_nonword after = true
        /\ forall pre y post,
            text = pre ++ y ++ post ->
            year_shaped y = true ->
            ends_nonword false pre = true ->
            starts_nonword post = true ->
            (String.length before <= String.length pre)%nat
  | None =>
      forall pre y post,
        text = pre ++ y ++ post ->
        year_shaped y = true ->
        ends_nonword false pre = true ->
        starts_nonword post = true ->
        False
  end.
Proof.
  intros _. unfold extract_season_year.
  destruct (search_year false text) as [found |] eqn:E.
  - apply search_year_first. exact E.
  - intros pre y post Hsplit Hy Hpre Hpost.
    destruct (search_year_leftmost pre false y post Hy Hpre Hpost)
      as [y' [_ [_ [Hfound _]]]].
    rewrite <- Hsplit in Hfound. congruence.
Qed.

(** Of the two years of this text the first is returned; the one of the
    next text, glued to a letter, is no match, and the year after it is. *)
Lemma extract_season_year_leftmost_witness :
  ascii_text "compare 1999 and 2010 stats" = true
  /\ extract_season_year "compare 1999 and 2010 stats" = Some "1999"
  /\ exists before after,
      "compare 1999 and 2010 stats" = before ++ "1999" ++ after
      /\ (String.length before <= String.length "compare 1999 and ")%nat.
Proof.
  split; [reflexivity |]. split; [reflexivity |].
  pose proof (extract_season_year_leftmost "compare 1999 and 2010 stats" eq_refl) as H.
  assert (E : extract_season_year "compare 1999 and 2010 stats" = Some "1999")
    by reflexivity.
  rewrite E in H.
  destruct H as [before [after [Hs [_ [_ [_ Hfirst]]]]]].
  exists before, after. split; [exact Hs |].
  apply (Hfirst "compare 1999 and " "2010" " stats"); reflexivity.
Defined.

Example leftmost_year_needs_boundaries :
  extract_season_year "2010x 1999 2010" = Some "1999".
Proof. reflexivity. Qed.

Lemma is_digit_cases (c : ascii) :
  PyStr.is_digit c = true ->
  In c ["0"; "1"; "2"; "3"; "4"; "5"; "6"; "7"; "8"; "9"]%char.
Proof.
  destruct c as [[] [] [] [] [] [] [] []]; intros H; vm_compute in H;
    try discriminate; simpl; tauto.
Qed.

(** The label of a year-shaped string, by the formula of the specification. *)
Lemma year_shaped_label (y : string) :
  year_shaped y = true ->
  PyStr.truthy y = true
  /\ exists n,
      PyStr.int_of_str y = Some n
      /\ 1900 <= n <= 2099
      /\ season_label (YStr y)
         = Some (PyStr.str_of_Z (n - 1) ++ "-" ++ two_digit_suffix n).
Proof.
  destruct y as [| a [| b [| c [| d [| e y]]]]]; try discriminate.
  intros H. simpl in H.
  apply andb_true_iff in H. destruct H as [H Hd].
  apply andb_true_iff in H. destruct H as [Hab Hc].
  split; [reflexivity |].
  apply is_digit_cases in Hc. apply is_digit_cases in Hd.
  apply orb_true_iff in Hab.
  destruct Hab as [Hab | Hab]; apply andb_true_iff in Hab; destruct Hab as [Ha Hb];
    apply Ascii.eqb_eq in Ha; apply Ascii.eqb_eq in Hb; subst a b;
    simpl in Hc, Hd;
    repeat (destruct Hc as [<- | Hc]; [| try contradiction]);
    repeat (destruct Hd as [<- | Hd]; [| try contradiction]);
    (eexists; split; [vm_compute; reflexivity |];
     split; [split; vm_compute; intros Hcmp; discriminate Hcmp | reflexivity]).
Qed.

(** X3. A year found in an utterance always has a season label, so the
    [int(season_year)] of the label expression cannot fail on it: its value
    [n] lies between 1900 and 2099 and the label is the decimal of [n - 1], a
    hyphen and the two last digits of [n]. *)
Theorem extracted_year_has_label (text y : string) :
  extract_season_year text = Some y ->
  exists n,
    PyStr.int_of_str y = Some n
    /\ 1900 <= n <= 2099
    /\ season_label (YStr y)
       = Some (PyStr.str_of_Z (n - 1) ++ "-" ++ two_digit_suffix n).
Proof.
  intros H. apply extract_year_shaped in H.
  apply year_shaped_label in H. tauto.
Qed.

Lemma extracted_year_has_label_witness :
  extract_season_year "who led the league in 2000?" = Some "2000"
  /\ exists n,
      PyStr.int_of_str "2000" = Some n
      /\ 1900 <= n <= 2099
      /\ season_label (YStr "2000")
         = Some (PyStr.str_of_Z (n - 1) ++ "-" ++ two_digit_suffix n).
Proof.
  split; [reflexivity |].
  apply (extracted_year_has_label "who led the league in 2000?" "2000"). reflexivity.
Defined.

(** ** The id of a name *)

Lemma find_id_in_some (ps : list Player) (name : string) (i : Z) :
  find_id_in ps name = Some i <->
  exists before p after,
    ps = (before ++ p :: after)%list
    /\ id p = i
    /\ PyStr.lower (full_name p) = PyStr.lower name
    /\ forall q, In q before -> PyStr.lower (full_name q) <> PyStr.lower name.
Proof.
  induction ps as [| q ps IH]; simpl.
  - split; [discriminate |].
    intros [before [p [after [H _]]]]. destruct before; discriminate.
  - destruct (String.eqb_spec (PyStr.lower (full_name q)) (PyStr.lower name)) as [E | N].
    + split.
      * intros H. exists [], q, ps. simpl.
        repeat split; [congruence | exact E | contradiction].
      * intros [before [p [after [Hps [Hid [_ Hbefore]]]]]].
        destruct before as [| q' before]; simpl in Hps; inversion Hps; subst.
        -- reflexivity.
        -- exfalso. apply (Hbefore q'); [left; reflexivity | exact E].
    + rewrite IH. split.
      * intros [before [p [after [Hps [Hid [Hp Hbefore]]]]]].
        exists (q :: before), p, after. subst ps. simpl.
        repeat split; try assumption.
        intros q' [<- | Hq']; [exact N | apply Hbefore; exact Hq'].
      * intros [before [p [after [Hps [Hid [Hp Hbefore]]]]]].
        destruct before as [| q' before]; simpl in Hps; inversion Hps; subst.
        -- contradiction.
        -- exists before, p, after. repeat split; try assumption.
           intros q Hq. apply Hbefore. right. exact Hq.
Qed.

Lemma find_id_in_none (ps : list Player) (name : string) :
  find_id_in ps name = None <->
  forall p, In p ps -> PyStr.lower (full_name p) <> PyStr.lower name.
Proof.
  induction ps as [| q ps IH]; simpl.
  - split; [intros _ p [] | reflexivity].
  - destruct (String.eqb_spec (PyStr.lower (full_name q)) (PyStr.lower name)) as [E | N].
    + split; [discriminate |].
      intros H. exfalso. apply (H q); [left; reflexivity | exact E].
    + rewrite IH. split.
      * intros H p [<- | Hp]; [exact N | apply H; exact Hp].
      * intros H p Hp. apply H. right. exact Hp.
Qed.

Lemma lower_ascii_idempotent (c : ascii) :
  PyStr.lower_ascii (PyStr.lower_ascii c) = PyStr.lower_ascii c.
Proof. destruct c as [[] [] [] [] [] [] [] []]; reflexivity. Qed.

Lemma lower_idempotent (s : string) : PyStr.lower (PyStr.lower s) = PyStr.lower s.
Proof.
  induction s as [| c s IH]; simpl; [reflexivity |].
  rewrite lower_ascii_idempotent, IH. reflexivity.
Qed.

(** X4. [find_player_id] returns the id of the first roster entry whose
    name equals the given one up to the case of letters, and none exactly
    when no entry does; the case of the given name plays no part. *)
Theorem find_player_id_first_match (env : Env) (name : string) :
  (forall i,
      find_player_id env name = Some i <->
      exists before p after,
        all_players env = (before ++ p :: after)%list
        /\ id p = i
        /\ PyStr.lower (full_name p) = PyStr.lower name
        /\ forall q, In q before -> PyStr.lower (full_name q) <> PyStr.lower name)
  /\ (find_player_id env name = None <->
      forall p, In p (all_players env) ->
                PyStr.lower (full_name p) <> PyStr.lower name)
  /\ find_player_id env (PyStr.lower name) = find_player_id env name.
Proof.
  split; [intros i; apply find_id_in_some |].
  split; [apply find_id_in_none |].
  unfold find_player_id.
  induction (all_players env) as [| q ps IH]; simpl; [reflexivity |].
  rewrite lower_idempotent, IH. reflexivity.
Qed.

(** Two entries with one name: the id of the first is the one returned,
    whatever the case of the query. *)
Lemma find_player_id_first_match_witness :
  find_player_id Sample.env_twins "MARCUS williams" = Some 200766
  /\ find_player_id Sample.env_twins "Marcus William" = None.
Proof.
  destruct (find_player_id_first_match Sample.env_twins "MARCUS williams") as [Hsome _].
  destruct (find_player_id_first_match Sample.env_twins "Marcus William") as [_ [Hnone _]].
  split.
  - apply Hsome.
    exists [], {| full_name := "Marcus Williams"; id := 200766; is_active := false |},
      [ {| full_name := "Marcus Williams"; id := 201173; is_active := false |} ].
    repeat split. intros q [].
  - apply Hnone. intros p [<- | [<- | []]]; vm_compute; discriminate.
Defined.

(** ** Requests to the backend *)

Section Requests.

Variable env : Env.

Lemma sends_ret {A} (a : A) : sends_at_most 0 (ret a).
Proof. intros w. exists []. simpl. rewrite app_nil_r. auto. Qed.

Lemma sends_raise {A} (e : exn) : sends_at_most 0 (@raise A e).
Proof. intros w. exists []. simpl. rewrite app_nil_r. auto. Qed.

Lemma sends_request {A} (c : Call) (r : exn + A) : sends_at_most 1 (request c r).
Proof. intros w. exists [c]. simpl. auto. Qed.

Lemma sends_weaken {A} (n n' : nat) (m : M A) :
  (n <= n')%nat -> sends_at_most n m -> sends_at_most n' m.
Proof.
  intros Hle Hm w. destruct (Hm w) as [new [Hcalls Hlen]].
  exists new. split; [exact Hcalls | lia].
Qed.

Lemma sends_bind {A B} (n k : nat) (m : M A) (f : A -> M B) :
  sends_at_most n m -> (forall a, sends_at_most k (f a)) ->
  sends_at_most (n + k) (bind m f).
Proof.
  intros Hm Hf w. unfold bind.
  destruct (Hm w) as [new [Hcalls Hlen]].
  destruct (m w) as [[a | e] w']; simpl in *.
  - destruct (Hf a w') as [new' [Hcalls' Hlen']].
    exists (new ++ new')%list. rewrite Hcalls', Hcalls, app_assoc, length_app.
    split; [reflexivity | lia].
  - exists new. split; [exact Hcalls | lia].
Qed.

Lemma sends_try {A} (n k : nat) (body : M A) (handler : exn -> M A) :
  sends_at_most n body -> (forall e, sends_at_most k (handler e)) ->
  sends_at_most (n + k) (try_except body handler).
Proof.
  intros Hb Hh w. unfold try_except.
  destruct (Hb w) as [new [Hcalls Hlen]].
  destruct (body w) as [[a | e] w']; simpl in *.
  - exists new. split; [exact Hcalls | lia].
  - destruct (Hh e w') as [new' [Hcalls' Hlen']].
    exists (new ++ new')%list. rewrite Hcalls', Hcalls, app_assoc, length_app.
    split; [reflexivity | lia].
Qed.

Lemma sends_of_option {A} (o : option A) (e : exn) : sends_at_most 0 (of_option o e).
Proof. destruct o; [apply sends_ret | apply sends_raise]. Qed.

Lemma sends_iloc_last {A} (df : list A) : sends_at_most 0 (iloc_last df).
Proof. unfold iloc_last. destruct (rev df); [apply sends_raise | apply sends_ret]. Qed.

Lemma sends_iloc_first {A} (df : list A) : sends_at_most 0 (iloc_first df).
Proof. destruct df; [apply sends_raise | apply sends_ret]. Qed.

(** The steps after the one request of a handler send nothing. *)
Ltac sends_nothing :=
  repeat first
    [ apply sends_ret
    | apply sends_raise
    | apply sends_of_option
    | apply sends_iloc_last
    | apply sends_iloc_first
    | apply (sends_bind 0 0); [| intros ?]
    | match goal with
      | |- sends_at_most _ (match ?x with _ => _ end) => destruct x
      | |- sends_at_most _ (if ?b then _ else _) => destruct b
      end ].

Lemma sends_get_stats (player_id : option Z) (season_year : option year_arg) :
  sends_at_most 1 (get_stats_for_season env player_id season_year).
Proof.
  unfold get_stats_for_season, season_id_of.
  apply (sends_bind 1 0); [apply sends_request | intros df].
  sends_nothing.
Qed.

Lemma sends_compare (name1 name2 : string) (season_year : option year_arg) :
  sends_at_most 2 (compare_players env name1 name2 season_year).
Proof.
  unfold compare_players.
  destruct (negb _ || negb _)%bool.
  - apply (sends_weaken 0); [lia | apply sends_ret].
  - apply (sends_bind 1 1); [apply sends_get_stats | intros s1].
    apply (sends_bind 1 0); [apply sends_get_stats | intros s2].
    destruct s1, s2; apply sends_ret.
Qed.

Lemma sends_top_scorers (y : year_arg) : sends_at_most 1 (get_top_scorers env y).
Proof.
  unfold get_top_scorers, season_id_of.
  apply (sends_bind 0 1); [apply sends_of_option | intros season_id].
  apply (sends_try 1 0); [| intros e; apply sends_ret].
  apply (sends_bind 1 0); [apply sends_request | intros df; apply sends_ret].
Qed.

Lemma sends_career (player_id : option Z) :
  sends_at_most 1 (get_career_averages env player_id).
Proof.
  unfold get_career_averages.
  apply (sends_bind 1 0); [apply sends_request | intros df]. sends_nothing.
Qed.

Lemma sends_bio (name : string) : sends_at_most 1 (get_player_bio env name).
Proof.
  unfold get_player_bio.
  destruct (find _ _).
  - apply (sends_try 1 0); [| intros e; apply sends_ret].
    apply (sends_bind 1 0); [apply sends_request | intros df]. sends_nothing.
  - apply (sends_weaken 0); [lia | apply sends_ret].
Qed.

Lemma sends_handle (intent : Intent) (season_year : option string) :
  sends_at_most (requests_allowed intent) (handle env intent season_year).
Proof.
  destruct intent; simpl.
  - destruct season_year as [y |]; [destruct (PyStr.truthy y) |];
      try apply sends_top_scorers;
      (apply (sends_weaken 0); [lia | apply sends_ret]).
  - destruct (negb _).
    + apply (sends_weaken 0); [lia | apply sends_ret].
    + apply (sends_bind 1 0); [apply sends_career | intros c; apply sends_ret].
  - apply sends_bio.
  - apply sends_compare.
  - apply (sends_bind 1 0); [apply sends_get_stats | intros s].
    unfold season_id_of. sends_nothing.
  - apply sends_ret.
Qed.

End Requests.

(** X5. A turn leaves the requests recorded before it as they are and adds
    at most as many as its intent allows: two for a comparison, none for an
    unrecognized utterance, one for every other intent; so never more than
    two. *)
Theorem turn_request_bound (env : Env) (user_input : string) (w : World) :
  exists new,
    calls (snd (generate_response env user_input w)) = (calls w ++ new)%list
    /\ (length new <= requests_allowed (turn_intent env user_input (session w)))%nat
    /\ (length new <= 2)%nat.
Proof.
  rewrite generate_response_unfold.
  destruct (sends_handle env (turn_intent env user_input (session w))
              (turn_season user_input (session w))
              {| session := committed env user_input (session w); calls := calls w |})
    as [new [Hcalls Hlen]].
  exists new. split; [exact Hcalls |]. split; [exact Hlen |].
  destruct (turn_intent env user_input (session w)); simpl in Hlen; lia.
Qed.

(** A comparison sends its two requests in the order of the two names. *)
Example compare_requests :
  calls (snd (generate_response Sample.env
                "compare LeBron James and Stephen Curry in 2020" Sample.fresh))
  = [CallCareerStats (Some 2544); CallCareerStats (Some 201939)].
Proof. reflexivity. Qed.

(** ** The biography handler *)

(** The [next(...)] of [get_player_bio] finds the player whose id
    [find_player_id] returns. *)
Lemma find_id_in_find (ps : list Player) (name : string) :
  find_id_in ps name
  = option_map id
      (find (fun p => String.eqb (PyStr.lower (full_name p)) (PyStr.lower name)) ps).
Proof.
  induction ps as [| q ps IH]; simpl; [reflexivity |].
  destruct (String.eqb _ _); [reflexivity | exact IH].
Qed.

(** X6. [get_player_bio] never raises.  A name [find_player_id] does not
    know is answered "Player not found." without a request; for a known name
    one request goes to the bio endpoint with the id [find_player_id]
    returns, and an exception of the endpoint, or an empty frame, comes back
    as the failure text that carries the text of the exception. *)
Theorem get_player_bio_total (env : Env) (name : string) (w : World) :
  (find_player_id env name = None ->
   get_player_bio env name w = (Returned "Player not found.", w))
  /\ (forall i,
        find_player_id env name = Some i ->
        exists text,
          get_player_bio env name w
          = (Returned text,
             {| session := session w; calls := (calls w ++ [CallPlayerInfo i])%list |})
          /\ (forall e, CommonPlayerInfo env i = inl e ->
                        text = bio_failed name e
                        /\ PyStr.contains (exn_str e) text = true)
          /\ (CommonPlayerInfo env i = inr [] -> text = bio_failed name IndexError)).
Proof.
  unfold find_player_id, get_player_bio. rewrite find_id_in_find.
  destruct (find _ (all_players env)) as [player |]; simpl.
  - split; [discriminate |].
    intros i Hi. assert (Hid : id player = i) by congruence. subst i.
    unfold try_except, bind, request.
    destruct (CommonPlayerInfo env (id player)) as [e | [| data df]]; simpl.
    + exists (bio_failed name e). split; [reflexivity |].
      split; [| discriminate].
      intros e' He'. assert (e' = e) by congruence. subst e'.
      split; [reflexivity |].
      unfold bio_failed.
      replace ("❌ Could not fetch detailed bio for " ++ name ++ ". Error: " ++ exn_str e)
        with (("❌ Could not fetch detailed bio for " ++ name ++ ". Error: ")
              ++ exn_str e ++ EmptyString).
      * apply contains_app.
      * rewrite !append_assoc_str.
        replace (exn_str e ++ EmptyString) with (exn_str e); [reflexivity |].
        induction (exn_str e) as [| c s IH]; simpl; [reflexivity | rewrite <- IH; reflexivity].
    + exists (bio_failed name IndexError). split; [reflexivity |].
      split; [discriminate | reflexivity].
    + exists (bio_text player data). split; [reflexivity |].
      split; discriminate.
  - split; [reflexivity | discriminate].
Qed.

Lemma get_player_bio_total_witness :
  find_player_id Sample.env "lebron james" = Some 2544
  /\ CommonPlayerInfo Sample.env 2544
     = inl (Exn "ReadTimeout" "stats.nba.com read timed out")
  /\ exists text,
      get_player_bio Sample.env "lebron james" Sample.fresh
      = (Returned text,
         {| session := Sample.empty_session; calls := [CallPlayerInfo 2544] |})
      /\ text = bio_failed "lebron james" (Exn "ReadTimeout" "stats.nba.com read timed out").
Proof.
  split; [reflexivity |]. split; [reflexivity |].
  destruct (proj2 (get_player_bio_total Sample.env "lebron james" Sample.fresh)
              2544 eq_refl) as [text [Hrun [Hfail _]]].
  exists text. split; [exact Hrun |].
  apply (Hfail (Exn "ReadTimeout" "stats.nba.com read timed out")). reflexivity.
Defined.

(** A record with a time in its birth date and an empty team: the date is
    cut to its first ten characters and the empty and the absent fields print
    as N/A; a player without a record gets the failure text. *)
Example bio_of_yao_ming :
  fst (generate_response Sample.env_bio "Yao Ming bio" Sample.fresh)
  = Returned (bio_text
                {| full_name := "Yao Ming"; id := 2397; is_active := false |}
                Sample.yao_bio)
  /\ PyStr.contains "**Birth Date:** 1980-09-12"
       (bio_text
          {| full_name := "Yao Ming"; id := 2397; is_active := false |} Sample.yao_bio)
     = true
  /\ PyStr.contains "1980-09-12T"
       (bio_text
          {| full_name := "Yao Ming"; id := 2397; is_active := false |} Sample.yao_bio)
     = false
  /\ PyStr.contains "**Team:** N/A (N/A)"
       (bio_text
          {| full_name := "Yao Ming"; id := 2397; is_active := false |} Sample.yao_bio)
     = true
  /\ fst (generate_response Sample.env_bio "LeBron James info" Sample.fresh)
     = Returned ("❌ Could not fetch detailed bio for LeBron James. "
                 ++ "Error: single positional indexer is out-of-bounds").
Proof. repeat split; reflexivity. Qed.

(** ** Top scorers with a year *)

(** X7. An utterance that triggers TopScorers and contains a year is always
    answered: the turn returns a text, stores the year, and sends exactly one
    request, for the league leaders of the season label of that year.  The
    text is the failure text when the endpoint raises and otherwise the table
    of the first five rows of its answer. *)
Theorem top_scorers_turn_answered (env : Env) (user_input : string) (w : World)
        (y : string) :
  top_trigger (PyStr.lower user_input) = true ->
  extract_season_year (PyStr.lower user_input) = Some y ->
  exists label text,
    season_label (YStr y) = Some label
    /\ generate_response env user_input w
       = (Returned text,
          {| session := committed env user_input (session w);
             calls := (calls w ++ [CallLeagueLeaders label])%list |})
    /\ last_season (committed env user_input (session w)) = Some y
    /\ (forall e, LeagueLeaders env label = inl e -> text = leaders_failed "PTS" label)
    /\ (forall df, LeagueLeaders env label = inr df ->
                   text = leaders_table env "PTS" label (firstn 5 df)).
Proof.
  intros Htop Hyear.
  pose proof (extract_year_shaped _ _ Hyear) as Hshape.
  destruct (year_shaped_label y Hshape) as [Htruthy [n [_ [_ Hlabel]]]].
  exists (PyStr.str_of_Z (n - 1) ++ "-" ++ two_digit_suffix n).
  rewrite generate_response_unfold.
  unfold turn_intent, route, committed, turn_season.
  rewrite Htop, Hyear. simpl handle. rewrite Htruthy.
  unfold get_top_scorers, season_id_of, bind, try_except, request.
  rewrite Hlabel. simpl.
  destruct (LeagueLeaders env _) as [e | df] eqn:Hl; simpl.
  - exists (leaders_failed "PTS" (PyStr.str_of_Z (n - 1) ++ "-" ++ two_digit_suffix n)).
    do 3 (split; [reflexivity |]).
    split; [reflexivity | discriminate].
  - exists (leaders_table env "PTS" (PyStr.str_of_Z (n - 1) ++ "-" ++ two_digit_suffix n)
              (firstn 5 df)).
    do 3 (split; [reflexivity |]).
    split; [discriminate |].
    intros df' Hdf'. assert (df' = df) by congruence. subst df'. reflexivity.
Qed.

Lemma top_scorers_turn_answered_witness :
  top_trigger (PyStr.lower "Top 5 by PPG in 2020") = true
  /\ extract_season_year (PyStr.lower "Top 5 by PPG in 2020") = Some "2020"
  /\ exists label text,
      season_label (YStr "2020") = Some label
      /\ generate_response Sample.env "Top 5 by PPG in 2020" Sample.fresh
         = (Returned text,
            {| session := {| last_player := None; last_season := Some "2020" |};
               calls := [CallLeagueLeaders label] |}).
Proof.
  split; [reflexivity |]. split; [reflexivity |].
  destruct (top_scorers_turn_answered Sample.env "Top 5 by PPG in 2020" Sample.fresh
              "2020" eq_refl eq_refl) as [label [text [Hlabel [Hrun _]]]].
  exists label, text. split; [exact Hlabel | exact Hrun].
Defined.

(** ** No player at all *)

(** X8. When the utterance does not trigger TopScorers, no player is
    resolved (no fuzzy match and none stored) and fewer than two roster names
    occur in it, the turn answers that no player was recognized, whatever
    keywords the utterance has, and sends no request; a year in the utterance
    is stored all the same. *)
Theorem no_player_not_recognized (env : Env) (user_input : string) (w : World) :
  top_trigger (PyStr.lower user_input) = false ->
  opt_truthy (turn_player env user_input (session w)) = false ->
  find_multiple_players env (PyStr.lower user_input) = None ->
  generate_response env user_input w
  = (Returned not_recognized,
     {| session := {| last_player := turn_player env user_input (session w);
                      last_season := turn_season user_input (session w) |};
        calls := calls w |}).
Proof.
  intros Htop Hplayer Hfound.
  rewrite generate_response_unfold.
  unfold turn_intent, route. rewrite Htop, Hplayer, Hfound. reflexivity.
Qed.

Lemma no_player_not_recognized_witness :
  top_trigger (PyStr.lower "career points in 2015?") = false
  /\ generate_response Sample.env "career points in 2015?" Sample.fresh
     = (Returned "I couldn't recognize any player. Try again with a name like 'LeBron James'.",
        {| session := {| last_player := None; last_season := Some "2015" |};
           calls := [] |}).
Proof.
  split; [reflexivity |].
  apply (no_player_not_recognized Sample.env "career points in 2015?" Sample.fresh);
    reflexivity.
Defined.

(** ** Comparisons that find their rows *)

(** The table of a comparison is headed by the season of the first
    player's row. *)
Lemma compare_table_header (env : Env) (name1 name2 : string) (stats1 stats2 : Stats env) :
  PyStr.contains ("** in " ++ season env stats1 ++ ":")
    (compare_table env name1 name2 stats1 stats2) = true.
Proof.
  unfold compare_table.
  match goal with
  | |- PyStr.contains ?needle (_ ++ name1 ++ _ ++ name2 ++ _ ++ _ ++ _ ++ ?rest) = true =>
      replace ("📊 **" ++ name1 ++ " vs " ++ name2 ++ "** in " ++ season env stats1
               ++ ":" ++ rest)
        with (("📊 **" ++ name1 ++ " vs " ++ name2) ++ needle ++ rest)
  end.
  - apply contains_app.
  - repeat rewrite append_assoc_str. reflexivity.
Qed.

(** X9. A comparison without a season (none in the utterance, none stored)
    whose two players have ids and non-empty career tables sends the two
    career requests in the order of the names and puts side by side the last
    row of each table; the two rows may be of different seasons, and the
    season printed in the heading is the one of the first player's row. *)
Theorem compare_without_season (env : Env) (name1 name2 : string)
        (season_year : option string)
        (rows1 rows2 : list (Row (num env))) (row1 row2 : Row (num env)) (w : World) :
  id_truthy (find_player_id env name1) = true ->
  id_truthy (find_player_id env name2) = true ->
  PlayerCareerStats env (find_player_id env name1) = inr (rows1 ++ [row1])%list ->
  PlayerCareerStats env (find_player_id env name2) = inr (rows2 ++ [row2])%list ->
  opt_truthy season_year = false ->
  handle env (Compare name1 name2) season_year w
  = (Returned (compare_table env name1 name2 (stats_of_row env row1) (stats_of_row env row2)),
     {| session := session w;
        calls := (calls w ++ [CallCareerStats (find_player_id env name1);
                              CallCareerStats (find_player_id env name2)])%list |})
  /\ PyStr.contains ("** in " ++ SEASON_ID row1 ++ ":")
       (compare_table env name1 name2 (stats_of_row env row1) (stats_of_row env row2))
     = true.
Proof.
  intros Hid1 Hid2 Hdf1 Hdf2 Hseason.
  split; [| apply (compare_table_header env name1 name2 (stats_of_row env row1))].
  assert (Hyear : opt_year_truthy (option_map YStr season_year) = false).
  { destruct season_year; simpl in *; assumption. }
  unfold handle, compare_players, bind. rewrite Hid1, Hid2. cbn [negb orb]. cbv beta.
  rewrite (get_stats_without_season env _ _ rows1 row1 _ Hdf1 Hyear).
  rewrite (get_stats_without_season env _ _ rows2 row2 _ Hdf2 Hyear).
  simpl. rewrite <- app_assoc. reflexivity.
Qed.

Lemma compare_without_season_witness :
  turn_intent Sample.env "LeBron James or Stephen Curry, who is better?"
    Sample.empty_session
  = Compare "LeBron James" "Stephen Curry"
  /\ fst (handle Sample.env (Compare "LeBron James" "Stephen Curry") None Sample.fresh)
     = Returned (compare_table Sample.env "LeBron James" "Stephen Curry"
                   (stats_of_row Sample.env
                      (Sample.row "2019-20" "LAL" 25300 10200 7800 67000 493))
                   (stats_of_row Sample.env
                      (Sample.row "2020-21" "GSW" 32000 5800 5500 63000 482))).
Proof.
  split; [reflexivity |].
  destruct (compare_without_season Sample.env "LeBron James" "Stephen Curry" None
              [Sample.row "2018-19" "LAL" 27400 8300 8500 55000 510]
              [Sample.row "2019-20" "GSW" 20800 6600 5200 5000 402]
              (Sample.row "2019-20" "LAL" 25300 10200 7800 67000 493)
              (Sample.row "2020-21" "GSW" 32000 5800 5500 63000 482)
              Sample.fresh eq_refl eq_refl eq_refl eq_refl eq_refl) as [Hrun _].
  rewrite Hrun. reflexivity.
Defined.

(** X10. A comparison for a resolved season whose two players have ids and
    a row for the label of that season shows, for each player, the first row
    of the table whose label is exactly that one; both rows carry the
    label. *)
Theorem compare_with_season (env : Env) (name1 name2 y label : string)
        (df1 df2 rest1 rest2 : list (Row (num env))) (row1 row2 : Row (num env))
        (w : World) :
  id_truthy (find_player_id env name1) = true ->
  id_truthy (find_player_id env name2) = true ->
  PlayerCareerStats env (find_player_id env name1) = inr df1 ->
  PlayerCareerStats env (find_player_id env name2) = inr df2 ->
  PyStr.truthy y = true ->
  season_label (YStr y) = Some label ->
  rows_of_season env label df1 = (row1 :: rest1)%list ->
  rows_of_season env label df2 = (row2 :: rest2)%list ->
  fst (handle env (Compare name1 name2) (Some y) w)
  = Returned (compare_table env name1 name2 (stats_of_row env row1) (stats_of_row env row2))
  /\ SEASON_ID row1 = label /\ SEASON_ID row2 = label.
Proof.
  intros Hid1 Hid2 Hdf1 Hdf2 Hy Hlabel Hrows1 Hrows2.
  split.
  - unfold handle, compare_players, bind. simpl option_map.
    rewrite Hid1, Hid2. cbn [negb orb]. cbv beta.
    rewrite (get_stats_with_season env _ (YStr y) label df1 _ Hdf1 Hy Hlabel).
    rewrite (get_stats_with_season env _ (YStr y) label df2 _ Hdf2 Hy Hlabel).
    rewrite Hrows1, Hrows2. reflexivity.
  - assert (H1 : In row1 (rows_of_season env label df1)) by (rewrite Hrows1; left; reflexivity).
    assert (H2 : In row2 (rows_of_season env label df2)) by (rewrite Hrows2; left; reflexivity).
    apply filter_In in H1. apply filter_In in H2.
    destruct H1 as [_ H1]. destruct H2 as [_ H2].
    apply String.eqb_eq in H1. apply String.eqb_eq in H2. auto.
Qed.

Lemma compare_with_season_witness :
  rows_of_season Sample.env "2019-20" Sample.lebron
  = [Sample.row "2019-20" "LAL" 25300 10200 7800 67000 493]
  /\ fst (handle Sample.env (Compare "LeBron James" "Stephen Curry") (Some "2020")
            Sample.fresh)
     = Returned (compare_table Sample.env "LeBron James" "Stephen Curry"
                   (stats_of_row Sample.env
                      (Sample.row "2019-20" "LAL" 25300 10200 7800 67000 493))
                   (stats_of_row Sample.env
                      (Sample.row "2019-20" "GSW" 20800 6600 5200 5000 402))).
Proof.
  split; [reflexivity |].
  apply (compare_with_season Sample.env "LeBron James" "Stephen Curry" "2020" "2019-20"
           Sample.lebron Sample.curry [] []
           (Sample.row "2019-20" "LAL" 25300 10200 7800 67000 493)
           (Sample.row "2019-20" "GSW" 20800 6600 5200 5000 402)
           Sample.fresh);
    reflexivity.
Defined.

(** ** Misses, empty tables and the texts that cannot come *)

(** X11. [get_stats_for_season] returns [None] in one case only: a season
    is given, its label is computed, the backend delivers the table and no
    row of the table has that label.  Hence a SeasonStat turn without a season
    either raises or prints a row; its "No stats found" text is never
    returned. *)
Theorem stats_none_only_on_miss (env : Env) (player_id : option Z)
        (season_year : option year_arg) (w : World) :
  (fst (get_stats_for_season env player_id season_year w) = Returned None <->
   exists y label df,
     season_year = Some y
     /\ year_truthy y = true
     /\ season_label y = Some label
     /\ PlayerCareerStats env player_id = inr df
     /\ rows_of_season env label df = [])
  /\ (forall player sub season,
        opt_truthy season = false ->
        (exists e, fst (handle env (SeasonStat player sub) season w) = Raised e)
        \/ (exists stats,
              fst (handle env (SeasonStat player sub) season w)
              = Returned (stat_text env sub player stats))).
Proof.
  split.
  - unfold get_stats_for_season, bind, request, season_id_of, iloc_last.
    destruct (PlayerCareerStats env player_id) as [e | df]; simpl.
    + split; [discriminate |].
      intros [y [label [df [_ [_ [_ [H _]]]]]]]. discriminate.
    + destruct season_year as [y |]; simpl.
      * destruct (year_truthy y) eqn:Hy.
        -- destruct (season_label y) as [label |] eqn:Hlabel; simpl.
           ++ destruct (rows_of_season env label df) as [| row rest] eqn:Hrows; simpl.
              ** split; [| reflexivity].
                 intros _. exists y, label, df. auto.
              ** split; [discriminate |].
                 intros [y' [label' [df' [Hs [_ [Hl [Hd Hr]]]]]]].
                 assert (y' = y) by congruence. subst y'.
                 assert (label' = label) by congruence.
                 assert (df' = df) by congruence. subst. rewrite Hrows in Hr. discriminate.
           ++ split; [discriminate |].
              intros [y' [label' [df' [Hs [_ [Hl _]]]]]].
              assert (y' = y) by congruence. subst y'. congruence.
        -- split.
           ++ destruct (rev df); simpl; discriminate.
           ++ intros [y' [label' [df' [Hs [Ht _]]]]].
              assert (y' = y) by congruence. subst y'. congruence.
      * split.
        -- destruct (rev df); simpl; discriminate.
        -- intros [y' [label' [df' [Hs _]]]]. discriminate.
  - intros player sub season Hseason.
    assert (Hyear : forall y, option_map YStr season = Some y -> year_truthy y = false).
    { destruct season as [s |]; simpl in *; intros y Hy; [| discriminate].
      inversion Hy; subst y. exact Hseason. }
    unfold handle, get_stats_for_season, bind, request, iloc_last.
    destruct (PlayerCareerStats env (find_player_id env player)) as [e | df]; simpl.
    + left. exists e. reflexivity.
    + destruct (option_map YStr season) as [y |] eqn:Hy.
      * rewrite (Hyear y eq_refl).
        destruct (rev df) as [| row rest]; simpl.
        -- left. exists IndexError. reflexivity.
        -- right. exists (stats_of_row env row). reflexivity.
      * destruct (rev df) as [| row rest]; simpl.
        -- left. exists IndexError. reflexivity.
        -- right. exists (stats_of_row env row). reflexivity.
Qed.

Lemma stats_none_only_on_miss_witness :
  fst (get_stats_for_season Sample.env (Some 201939) (Some (YStr "2019")) Sample.fresh)
  = Returned None.
Proof.
  apply (proj1 (stats_none_only_on_miss Sample.env (Some 201939) (Some (YStr "2019"))
                  Sample.fresh)).
  exists (YStr "2019"), "2018-19", Sample.curry.
  repeat split.
Defined.

(** X12. On an empty career table [df.iloc[-1]] raises: the career summary
    and the statistics without a season end in an [IndexError], after their
    one request, and a CareerAverages turn for such a player raises it; with
    a season the empty table is an ordinary miss. *)
Theorem empty_career_table (env : Env) (player_id : option Z) (w : World) :
  PlayerCareerStats env player_id = inr [] ->
  get_career_averages env player_id w
  = (Raised IndexError,
     {| session := session w; calls := (calls w ++ [CallCareerStats player_id])%list |})
  /\ (forall season_year,
        opt_year_truthy season_year = false ->
        get_stats_for_season env player_id season_year w
        = (Raised IndexError,
           {| session := session w;
              calls := (calls w ++ [CallCareerStats player_id])%list |}))
  /\ (forall y label,
        year_truthy y = true ->
        season_label y = Some label ->
        fst (get_stats_for_season env player_id (Some y) w) = Returned None)
  /\ (forall user_input player,
        turn_intent env user_input (session w) = CareerAverages player ->
        find_player_id env player = player_id ->
        id_truthy player_id = true ->
        fst (generate_response env user_input w) = Raised IndexError).
Proof.
  intros Hdf.
  assert (Hcareer : forall w',
             get_career_averages env player_id w'
             = (Raised IndexError,
                {| session := session w';
                   calls := (calls w' ++ [CallCareerStats player_id])%list |})).
  { intros w'. unfold get_career_averages, bind, request. rewrite Hdf. reflexivity. }
  split; [apply Hcareer |].
  split.
  - intros season_year Hseason.
    unfold get_stats_for_season, bind, request. rewrite Hdf.
    destruct season_year as [y |]; simpl in *; [rewrite Hseason |]; reflexivity.
  - split.
    + intros y label Hy Hlabel.
      rewrite (get_stats_with_season env _ y label [] _ Hdf Hy Hlabel). reflexivity.
    + intros user_input player Hintent Hid Htruthy.
      rewrite generate_response_unfold, Hintent.
      unfold handle, bind. cbv zeta. rewrite Hid, Htruthy. cbn [negb]. cbv beta.
      rewrite Hcareer. reflexivity.
Qed.

Lemma empty_career_table_witness :
  PlayerCareerStats Sample.env (Some 201142) = inr []
  /\ turn_intent Sample.env "Kevin Durant career" Sample.empty_session
     = CareerAverages "Kevin Durant"
  /\ fst (generate_response Sample.env "Kevin Durant career" Sample.fresh)
     = Raised (Exn "IndexError" "single positional indexer is out-of-bounds").
Proof.
  split; [reflexivity |]. split; [reflexivity |].
  destruct (empty_career_table Sample.env (Some 201142) Sample.fresh eq_refl)
    as [_ [_ [_ H]]].
  apply (H "Kevin Durant career" "Kevin Durant"); reflexivity.
Defined.

(** ** What the session holds after any number of turns *)

Lemma turn_season_shaped (user_input : string) (s : SessionState) :
  season_stored_ok s = true ->
  forall y, turn_season user_input s = Some y -> year_shaped y = true.
Proof.
  unfold season_stored_ok, turn_season. intros Hs y.
  destruct (extract_season_year (PyStr.lower user_input)) as [y' |] eqn:E.
  - intros H. assert (y' = y) by congruence. subst y'.
    apply (extract_year_shaped _ _ E).
  - intros H. rewrite H in Hs. exact Hs.
Qed.

Lemma session_after_turn (env : Env) (user_input : string) (w : World) :
  session (snd (generate_response env user_input w)) = committed env user_input (session w).
Proof. rewrite generate_response_unfold, keeps_handle. reflexivity. Qed.

(** X13. Whatever utterances follow one another, and whether their turns
    answer or raise, a session that starts with no stored season, or with a
    year the regular expression matched, never stores anything else as its
    season; and, [get_close_matches] answering with names of the list it is
    given, a stored player is always a name of the roster. *)
Theorem stored_entities_invariant (env : Env) (inputs : list string) (w : World) :
  season_stored_ok (session w) = true ->
  season_stored_ok (session (run_turns env inputs w)) = true
  /\ ((forall word n name,
          In name (get_close_matches env word (player_names env) n) ->
          In name (player_names env)) ->
      (forall p, last_player (session w) = Some p -> In p (player_names env)) ->
      forall p, last_player (session (run_turns env inputs w)) = Some p ->
                In p (player_names env)).
Proof.
  revert w. induction inputs as [| user_input rest IH]; intros w Hseason; simpl.
  - split; [exact Hseason | auto].
  - assert (Hnext : season_stored_ok (session (snd (generate_response env user_input w)))
                    = true).
    { rewrite session_after_turn. unfold season_stored_ok, committed. simpl.
      destruct (turn_season user_input (session w)) as [y |] eqn:E; [| reflexivity].
      eapply turn_season_shaped; eassumption. }
    destruct (IH _ Hnext) as [IHseason IHplayer].
    split; [exact IHseason |].
    intros Hlib Hplayer. apply IHplayer; [exact Hlib |].
    rewrite session_after_turn. unfold committed, turn_player. simpl.
    intros p.
    destruct (find_closest_names env user_input 1) as [| first others] eqn:E.
    + apply Hplayer.
    + intros H. assert (first = p) by congruence. subst first.
      apply (Hlib user_input 1%nat). unfold find_closest_names in E. rewrite E.
      left. reflexivity.
Qed.

Lemma stored_entities_invariant_witness :
  season_stored_ok (session Sample.fresh) = true
  /\ season_stored_ok
       (session (run_turns Sample.env
                   ["LeBron James points 2020"; "Kevin Durant career"; "what about 12345"]
                   Sample.fresh)) = true
  /\ forall p,
      last_player
        (session (run_turns Sample.env
                    ["LeBron James points 2020"; "Kevin Durant career"; "what about 12345"]
                    Sample.fresh)) = Some p ->
      In p (player_names Sample.env).
Proof.
  split; [reflexivity |].
  destruct (stored_entities_invariant Sample.env
              ["LeBron James points 2020"; "Kevin Durant career"; "what about 12345"]
              Sample.fresh eq_refl) as [Hseason Hplayer].
  split; [exact Hseason |].
  apply Hplayer.
  - intros word n name. apply close_matches_in_possibilities.
  - intros p H. discriminate H.
Defined.

(** ** Turns that cannot raise *)

Section Escapes.

Variable env : Env.
Variable P : exn -> Prop.

Lemma raises_ret {A} (a : A) : raises_only P (ret a).
Proof. intros w e H. discriminate H. Qed.



Lemma raises_bind {A B} (m : M A) (k : A -> M B) :
  raises_only P m -> (forall a, raises_only P (k a)) -> raises_only P (bind m k).
Proof.
  intros Hm Hk w e H. unfold bind in H.
  specialize (Hm w). destruct (m w) as [[a | e'] w']; simpl in *.
  - apply (Hk a w'). exact H.
  - apply Hm. inversion H. reflexivity.
Qed.

(** A [try] whose handler returns lets nothing out. *)
Lemma raises_try {A} (body : M A) (handler : exn -> M A) :
  (forall e, raises_only P (handler e)) -> raises_only P (try_except body handler).
Proof.
  intros Hh w e H. unfold try_except in H.
  destruct (body w) as [[a | e'] w']; simpl in *.
  - discriminate H.
  - apply (Hh e' w'). exact H.
Qed.


End Escapes.

Lemma raises_season_id (env : Env) (P : exn -> Prop) (y : string) :
  year_shaped y = true -> raises_only P (season_id_of (YStr y)).
Proof.
  intros Hy. destruct (year_shaped_label y Hy) as [_ [n [_ [_ Hlabel]]]].
  unfold season_id_of. rewrite Hlabel. apply raises_ret.
Qed.

(** A computation that raises nothing returns. *)
Lemma never_raises_returns {A} (m : M A) (w : World) :
  raises_only (fun _ => False) m -> exists a, fst (m w) = Returned a.
Proof.
  intros Hm. specialize (Hm w).
  destruct (m w) as [[a | e] w']; simpl in *.
  - exists a. reflexivity.
  - exfalso. apply (Hm e). reflexivity.
Qed.

(** X14. In a session whose stored season is absent or a year the regular
    expression matched (as it is after any run from an empty session), the
    season of a turn always has a label, so [int(season_year)] does not fail
    on it; and a TopScorers, Bio or unrecognized turn never raises: it
    returns a text, whatever the leaders and the bio endpoint do, their
    handlers working inside a [try]. *)
Theorem guarded_turns_never_raise (env : Env) (user_input : string) (w : World) :
  season_stored_ok (session w) = true ->
  (forall y,
      turn_season user_input (session w) = Some y ->
      PyStr.truthy y = true /\ exists label, season_label (YStr y) = Some label)
  /\ match turn_intent env user_input (session w) with
     | TopScorers | Bio _ | Unrecognized =>
         exists text, fst (generate_response env user_input w) = Returned text
     | _ => True
     end.
Proof.
  intros Hseason.
  pose proof (turn_season_shaped user_input (session w) Hseason) as Hshape.
  split.
  - intros y Hy. destruct (year_shaped_label y (Hshape y Hy)) as [Ht [n [_ [_ Hl]]]].
    split; [exact Ht | eexists; exact Hl].
  - rewrite generate_response_unfold.
    destruct (turn_intent env user_input (session w)); try exact I;
      apply never_raises_returns; simpl.
    + destruct (turn_season user_input (session w)) as [y |] eqn:Hy; [| apply raises_ret].
      destruct (PyStr.truthy y); [| apply raises_ret].
      unfold get_top_scorers. apply raises_bind.
      * apply (raises_season_id env). apply Hshape. reflexivity.
      * intros season_id. apply raises_try. intros e'. apply raises_ret.
    + unfold get_player_bio. destruct (find _ _); [| apply raises_ret].
      apply raises_try. intros e'. apply raises_ret.
    + apply raises_ret.
Qed.

(** A stored year and a leaders endpoint that fails: the TopScorers turn
    returns the failure text. *)
Lemma guarded_turns_never_raise_witness :
  season_stored_ok {| last_player := None; last_season := Some "2021" |} = true
  /\ turn_intent Sample.env "top ppg" {| last_player := None; last_season := Some "2021" |}
     = TopScorers
  /\ exists text,
      fst (generate_response Sample.env "top ppg"
             {| session := {| last_player := None; last_season := Some "2021" |};
                calls := [] |})
      = Returned text.
Proof.
  split; [reflexivity |]. split; [reflexivity |].
  destruct (guarded_turns_never_raise Sample.env "top ppg"
              {| session := {| last_player := None; last_season := Some "2021" |};
                 calls := [] |} eq_refl) as [_ H].
  exact H.
Defined.

(** ** Carry-over between turns *)

(** X15. A turn whose utterance has no year and no fuzzy match is handled
    with the player and the season of the turn before it, whether that turn
    answered or raised, and leaves the session as it found it. *)
Theorem carry_over_entities (env : Env) (first_input next_input : string) (w : World) :
  extract_season_year (PyStr.lower next_input) = None ->
  find_closest_names env next_input 1 = [] ->
  let w1 := snd (generate_response env first_input w) in
  generate_response env next_input w1
  = handle env
      (route (PyStr.lower next_input) (turn_player env first_input (session w))
             (find_multiple_players env (PyStr.lower next_input)))
      (turn_season first_input (session w))
      w1
  /\ session (snd (generate_response env next_input w1)) = session w1.
Proof.
  intros Hyear Hclose. cbv zeta.
  assert (Hsame : committed env next_input
                    (session (snd (generate_response env first_input w)))
                  = session (snd (generate_response env first_input w))).
  { unfold committed, turn_player, turn_season. rewrite Hyear, Hclose.
    destruct (session (snd (generate_response env first_input w))). reflexivity. }
  split.
  - rewrite (generate_response_unfold env next_input).
    rewrite Hsame.
    unfold turn_intent, turn_player at 1, turn_season at 1. rewrite Hyear, Hclose.
    rewrite session_after_turn. simpl.
    destruct (snd (generate_response env first_input w)) as [s1 c1] eqn:E.
    simpl. replace s1 with (committed env first_input (session w)).
    + reflexivity.
    + rewrite <- session_after_turn, E. reflexivity.
  - rewrite session_after_turn. exact Hsame.
Qed.

Lemma carry_over_entities_witness :
  extract_season_year (PyStr.lower "and his assists?") = None
  /\ find_closest_names Sample.env "and his assists?" 1 = []
  /\ fst (generate_response Sample.env "and his assists?"
            (snd (generate_response Sample.env "Giannis Antetokounmpo team 2020"
                    Sample.fresh)))
     = Returned "Giannis Antetokounmpo made 5.6 APG in the 2019-20 season.".
Proof.
  split; [reflexivity |]. split; [reflexivity |].
  destruct (carry_over_entities Sample.env "Giannis Antetokounmpo team 2020"
              "and his assists?" Sample.fresh eq_refl eq_refl) as [Hrun _].
  rewrite Hrun. reflexivity.
Defined.

(** ** What an intent carries *)

(** X16. The names a handler works on are never missing: a CareerAverages,
    Bio or SeasonStat intent carries the resolved player, a non-empty name;
    a Compare intent carries the two names the exact resolver returned, which
    are roster names occurring in the utterance, so indexing the pair never
    fails; and an utterance is unrecognized only if no player is resolved and
    no pair was found. *)
Theorem intent_entities (env : Env) (user_input : string) (s : SessionState) :
  match turn_intent env user_input s with
  | TopScorers => top_trigger (PyStr.lower user_input) = true
  | CareerAverages p | Bio p | SeasonStat p _ =>
      turn_player env user_input s = Some p /\ PyStr.truthy p = true
  | Compare name1 name2 =>
      find_multiple_players env (PyStr.lower user_input) = Some [name1; name2]
      /\ In name1 (player_names env) /\ In name2 (player_names env)
      /\ name_present (PyStr.lower user_input) name1 = true
      /\ name_present (PyStr.lower user_input) name2 = true
  | Unrecognized =>
      opt_truthy (turn_player env user_input s) = false
      /\ find_multiple_players env (PyStr.lower user_input) = None
  end.
Proof.
  unfold turn_intent, route.
  destruct (top_trigger (PyStr.lower user_input)); [reflexivity |].
  assert (Hplayer : forall o, opt_truthy o = true ->
                              o = Some (name_text o) /\ PyStr.truthy (name_text o) = true).
  { intros [p |] H; simpl in *; [auto | discriminate]. }
  destruct (opt_truthy (turn_player env user_input s)) eqn:Hp; simpl.
  - destruct (career_trigger _); [apply Hplayer; exact Hp |].
    destruct (bio_trigger _); [apply Hplayer; exact Hp |].
    destruct (find_multiple_players env (PyStr.lower user_input)) as [found |] eqn:Hfound;
      [| apply Hplayer; exact Hp].
    pose proof Hfound as Hspec. rewrite find_multiple_players_spec in Hspec.
    destruct (names_present env (PyStr.lower user_input)) as [| a [| b l]] eqn:E;
      try discriminate.
    inversion Hspec; subst found. simpl.
    assert (Ha : In a (names_present env (PyStr.lower user_input))) by (rewrite E; simpl; auto).
    assert (Hb : In b (names_present env (PyStr.lower user_input))) by (rewrite E; simpl; auto).
    unfold names_present in Ha, Hb. apply filter_In in Ha. apply filter_In in Hb.
    tauto.
  - destruct (find_multiple_players env (PyStr.lower user_input)) as [found |] eqn:Hfound;
      [| auto].
    pose proof Hfound as Hspec. rewrite find_multiple_players_spec in Hspec.
    destruct (names_present env (PyStr.lower user_input)) as [| a [| b l]] eqn:E;
      try discriminate.
    inversion Hspec; subst found. simpl.
    assert (Ha : In a (names_present env (PyStr.lower user_input))) by (rewrite E; simpl; auto).
    assert (Hb : In b (names_present env (PyStr.lower user_input))) by (rewrite E; simpl; auto).
    unfold names_present in Ha, Hb. apply filter_In in Ha. apply filter_In in Hb.
    tauto.
Qed.

(** ** Lower-casing the utterance *)

Lemma lower_ascii_word (c : ascii) : PyStr.is_word (PyStr.lower_ascii c) = PyStr.is_word c.
Proof. destruct c as [[] [] [] [] [] [] [] []]; reflexivity. Qed.

Lemma lower_ascii_digit (c : ascii) : PyStr.is_digit (PyStr.lower_ascii c) = PyStr.is_digit c.
Proof. destruct c as [[] [] [] [] [] [] [] []]; reflexivity. Qed.

Lemma lower_ascii_of_digit (c : ascii) : PyStr.is_digit c = true -> PyStr.lower_ascii c = c.
Proof. destruct c as [[] [] [] [] [] [] [] []]; intros H; try reflexivity; discriminate H. Qed.

Lemma lower_ascii_eqb_digit (c d : ascii) :
  PyStr.is_digit d = true -> Ascii.eqb (PyStr.lower_ascii c) d = Ascii.eqb c d.
Proof.
  intros Hd.
  destruct (Ascii.eqb_spec c d) as [-> | N].
  - rewrite (lower_ascii_of_digit d Hd). apply Ascii.eqb_refl.
  - apply Ascii.eqb_neq. intros E. apply N.
    assert (Hc : PyStr.is_digit c = true) by (rewrite <- lower_ascii_digit, E; exact Hd).
    rewrite (lower_ascii_of_digit c Hc) in E. exact E.
Qed.

Lemma year_at_lower (s : string) : year_at (PyStr.lower s) = year_at s.
Proof.
  destruct s as [| a [| b [| c [| d rest]]]]; try reflexivity.
  cbn [PyStr.lower year_at].
  rewrite !lower_ascii_eqb_digit by reflexivity.
  rewrite !lower_ascii_digit.
  replace (match PyStr.lower rest with
           | EmptyString => true
           | String e _ => negb (PyStr.is_word e)
           end)
    with (match rest with
          | EmptyString => true
          | String e _ => negb (PyStr.is_word e)
          end)
    by (destruct rest; simpl; [reflexivity | rewrite lower_ascii_word; reflexivity]).
  destruct (_ && _)%bool eqn:E; [| reflexivity].
  apply andb_true_iff in E. destruct E as [E _].
  apply andb_true_iff in E. destruct E as [E Hd].
  apply andb_true_iff in E. destruct E as [Hab Hc].
  rewrite (lower_ascii_of_digit c Hc), (lower_ascii_of_digit d Hd).
  apply orb_true_iff in Hab.
  destruct Hab as [Hab | Hab]; apply andb_true_iff in Hab; destruct Hab as [Ha Hb];
    apply Ascii.eqb_eq in Ha; apply Ascii.eqb_eq in Hb; subst a b; reflexivity.
Qed.

Lemma search_year_lower (s : string) :
  forall prev, search_year prev (PyStr.lower s) = search_year prev s.
Proof.
  induction s as [| c rest IH]; intros prev.
  - reflexivity.
  - rewrite (search_year_unfold prev (String c rest)),
      (search_year_unfold prev (PyStr.lower (String c rest))), year_at_lower.
    cbn [PyStr.lower]. rewrite lower_ascii_word, IH. reflexivity.
Qed.

(** X17. [generate_response] lower-cases the utterance before it looks for
    a year and for two names; nothing is lost by it: on an ASCII text the
    year found in the lower-cased text is the year found in the text as
    typed, and the pair of names found depends on the text only up to the
    case of its letters. *)
Theorem lowering_loses_nothing (env : Env) (text : string) :
  (ascii_text text = true ->
   extract_season_year (PyStr.lower text) = extract_season_year text)
  /\ find_multiple_players env (PyStr.lower text) = find_multiple_players env text
  /\ forall other, PyStr.lower other = PyStr.lower text ->
                   find_multiple_players env other = find_multiple_players env text.
Proof.
  split; [intros _; apply search_year_lower |].
  assert (H : forall other, PyStr.lower other = PyStr.lower text ->
                            find_multiple_players env other = find_multiple_players env text).
  { intros other Hother. rewrite !find_multiple_players_spec.
    unfold names_present, name_present. rewrite Hother. reflexivity. }
  split; [apply H; apply lower_idempotent | exact H].
Qed.

Lemma lowering_loses_nothing_witness :
  ascii_text "LEBRON JAMES VS STEPHEN CURRY 2020" = true
  /\ extract_season_year (PyStr.lower "LEBRON JAMES VS STEPHEN CURRY 2020") = Some "2020"
  /\ PyStr.lower "LEBRON JAMES VS STEPHEN CURRY 2020"
     = PyStr.lower "lebron james vs stephen curry 2020"
  /\ find_multiple_players Sample.env "LEBRON JAMES VS STEPHEN CURRY 2020"
     = Some ["LeBron James"; "Stephen Curry"].
Proof.
  split; [reflexivity |].
  split.
  - rewrite (proj1 (lowering_loses_nothing Sample.env
                      "LEBRON JAMES VS STEPHEN CURRY 2020") eq_refl).
    reflexivity.
  - split; [reflexivity |].
    rewrite (proj2 (proj2 (lowering_loses_nothing Sample.env
                             "lebron james vs stephen curry 2020"))
               "LEBRON JAMES VS STEPHEN CURRY 2020" eq_refl).
    reflexivity.
Defined.
